(** * convert_md.py: the line-oriented markdown-to-HTML converter

    A shallow embedding of [format_inline], [render_table] and the scan loop
    of [main] from [src/convert_md.py], followed by the properties of the
    block parser and of the inline formatter.

    Python strings are sequences of Unicode code points: a character is a
    code point ([N]) and a string is a list of characters.  String constants
    of the source are written [py "..."]. *)

From Stdlib Require Import String Ascii DecimalString.
From Stdlib Require Import List NArith Bool Arith Lia.
Import ListNotations.

Local Open Scope list_scope.

(* ------------------------------------------------------------------ *)
(** ** Python strings *)

Module PyStr.

Definition char := N.
Definition str := list char.

(** A string constant of the source. *)
Definition py (s : string) : str :=
  map N_of_ascii (list_ascii_of_string s).

(** The double quote, which the source writes inside single-quoted and
    f-string literals. *)
Definition dquote : char := 34%N.
Definition newline : char := 10%N.

Definition char_eqb (a b : char) : bool := N.eqb a b.

Fixpoint str_eqb (a b : str) : bool :=
  match a, b with
  | [], [] => true
  | x :: a', y :: b' => char_eqb x y && str_eqb a' b'
  | _, _ => false
  end.

(** [not s] on a string or a list: true exactly on the empty one. *)
Definition is_empty {A : Type} (s : list A) : bool :=
  match s with [] => true | _ :: _ => false end.

(** [c in chars]. *)
Definition char_in (c : char) (chars : str) : bool :=
  existsb (char_eqb c) chars.

(** [str.isspace] on one character: the code points CPython's
    [Py_UNICODE_ISSPACE] accepts. *)
Definition is_space (c : char) : bool :=
  ((9 <=? c) && (c <=? 13) || (28 <=? c) && (c <=? 32)
   || (c =? 133) || (c =? 160) || (c =? 5760)
   || (8192 <=? c) && (c <=? 8202)
   || (c =? 8232) || (c =? 8233) || (c =? 8239) || (c =? 8287)
   || (c =? 12288))%N.

(** [s.lstrip] with the set of characters to remove given as a predicate. *)
Fixpoint lstrip_by (p : char -> bool) (s : str) : str :=
  match s with
  | [] => []
  | c :: r => if p c then lstrip_by p r else s
  end.

(** [s.rstrip]: the characters removed are the longest suffix satisfying
    [p]. *)
Fixpoint rstrip_by (p : char -> bool) (s : str) : str :=
  match s with
  | [] => []
  | c :: r =>
      match rstrip_by p r with
      | [] => if p c then [] else [c]
      | r' => c :: r'
      end
  end.

Definition strip_by (p : char -> bool) (s : str) : str :=
  rstrip_by p (lstrip_by p s).

(** [s.strip()]: whitespace removed at both ends. *)
Definition strip (s : str) : str := strip_by is_space s.

(** [s.strip(chars)]: every leading and trailing character that occurs in
    [chars] is removed. *)
Definition strip_chars (chars : str) (s : str) : str :=
  strip_by (fun c => char_in c chars) s.

(** [s.startswith(prefix)]. *)
Fixpoint startswith (s prefix : str) {struct prefix} : bool :=
  match prefix, s with
  | [], _ => true
  | p :: prefix', c :: s' => char_eqb c p && startswith s' prefix'
  | _ :: _, [] => false
  end.

(** [sub in s]. *)
Fixpoint contains (sub s : str) : bool :=
  startswith s sub
  || match s with
     | [] => false
     | _ :: r => contains sub r
     end.

(** [s.split(sep)] for a one-character separator: always at least one
    field. *)
Fixpoint split (sep : char) (s : str) : list str :=
  match s with
  | [] => [[]]
  | c :: r =>
      if char_eqb c sep then [] :: split sep r
      else match split sep r with
           | f :: fs => (c :: f) :: fs
           | [] => [[c]]
           end
  end.

(** [s.replace(old, new)] for a one-character [old]. *)
Fixpoint replace_char (old : char) (new : str) (s : str) : str :=
  match s with
  | [] => []
  | c :: r =>
      (if char_eqb c old then new else [c]) ++ replace_char old new r
  end.

(** [all(c in chars for c in s)]. *)
Definition all_in (chars : str) (s : str) : bool :=
  forallb (fun c => char_in c chars) s.

(** [str(n)] for a non-negative integer, as an f-string prints it. *)
Definition str_of_nat (n : nat) : str :=
  py (NilZero.string_of_uint (Nat.to_uint n)).

(** ["".join(parts)]. *)
Definition join_empty (parts : list str) : str := concat parts.

(** [sep.join(parts)]. *)
Fixpoint join (sep : str) (parts : list str) : str :=
  match parts with
  | [] => []
  | [p] => p
  | p :: rest => p ++ sep ++ join sep rest
  end.

End PyStr.
Import PyStr.

(* ------------------------------------------------------------------ *)
(** ** The fragment of [re] that [format_inline] uses

    The four patterns are built from literals, one lookbehind, one lookahead
    and the lazy group [(.*?)].  A pattern is embedded as the function that
    attempts it at one position, in the order the backtracking matcher of
    [re] explores: [(.*?)] first tries the rest of the pattern with the
    group as short as possible and extends the group by one character, which
    must not be a newline, only when the rest fails. *)

Module Re.

(** [.] without [re.DOTALL]. *)
Definition is_dot (c : char) : bool := negb (char_eqb c newline).

(** A literal: the text after it, when the text starts with it. *)
Fixpoint lit (l : str) (s : str) : option str :=
  match l, s with
  | [], _ => Some s
  | a :: l', c :: s' => if char_eqb c a then lit l' s' else None
  | _ :: _, [] => None
  end.

(** [(.*?)] followed by the rest [k] of the pattern: the captured group and
    what [k] returns. *)
Fixpoint lazy_dot {A : Type} (k : str -> option A) (s : str)
  : option (str * A) :=
  match k s with
  | Some a => Some ([], a)
  | None =>
      match s with
      | [] => None
      | c :: r =>
          if is_dot c then
            match lazy_dot k r with
            | Some (g, a) => Some (c :: g, a)
            | None => None
            end
          else None
      end
  end.

(** An attempt at one position sees the character before it (for a
    lookbehind) and the text from it; on success it gives the expanded
    replacement template and the text after the match. *)
Definition attempt := option char -> str -> option (str * str).

(** [re.sub(pattern, repl, text)] for a pattern that cannot match the empty
    string: the text is scanned from the left, at each position not inside
    an earlier match the pattern is attempted, a match is replaced and the
    scan resumes after it.  [skip] counts the characters of the current
    match still to pass over. *)
Fixpoint sub_loop (m : attempt) (prev : option char) (skip : nat)
  (text : str) : str :=
  match text with
  | [] => []
  | c :: rest =>
      match skip with
      | S k => sub_loop m (Some c) k rest
      | O =>
          match m prev text with
          | Some (repl, after) =>
              repl ++ sub_loop m (Some c)
                        (length text - length after - 1) rest
          | None => c :: sub_loop m (Some c) 0 rest
          end
      end
  end.

Definition sub (m : attempt) (text : str) : str := sub_loop m None 0 text.

Definition star : char := 42%N.

(** A lookbehind for one character: at the start of the text there is no
    character to look at. *)
Definition preceded_by (c : char) (prev : option char) : bool :=
  match prev with
  | Some p => char_eqb p c
  | None => false
  end.

(** Bold (line 179): two stars, the lazy group, two stars; replaced by the
    group inside a strong element. *)
Definition bold : attempt := fun _ s =>
  match lit (py "**") s with
  | Some s1 =>
      match lazy_dot (lit (py "**")) s1 with
      | Some (g1, after) =>
          Some (py "<strong>" ++ g1 ++ py "</strong>", after)
      | None => None
      end
  | None => None
  end.

(** Italic (line 181): a star that is neither preceded (lookbehind) nor
    followed (lookahead) by a star, the lazy group, a star; replaced by the
    group inside an em element. *)
Definition italic : attempt := fun prev s =>
  if preceded_by star prev then None else
  match lit (py "*") s with
  | Some s1 =>
      if startswith s1 (py "*") then None else
      match lazy_dot (lit (py "*")) s1 with
      | Some (g1, after) => Some (py "<em>" ++ g1 ++ py "</em>", after)
      | None => None
      end
  | None => None
  end.

(** Code (line 183): a backtick, the lazy group, a backtick; replaced by
    the group inside a code element. *)
Definition code : attempt := fun _ s =>
  match lit (py "`") s with
  | Some s1 =>
      match lazy_dot (lit (py "`")) s1 with
      | Some (g1, after) => Some (py "<code>" ++ g1 ++ py "</code>", after)
      | None => None
      end
  | None => None
  end.

(** Link (line 185): an opening bracket, the lazy group 1, a closing
    bracket and an opening parenthesis, the lazy group 2, a closing
    parenthesis; replaced by an anchor whose href is group 2 and whose text
    is group 1. *)
Definition link : attempt := fun _ s =>
  match lit (py "[") s with
  | Some s1 =>
      match lazy_dot (fun s2 =>
               match lit (py "](") s2 with
               | Some s3 => lazy_dot (lit (py ")")) s3
               | None => None
               end) s1 with
      | Some (g1, (g2, after)) =>
          Some (py "<a href=" ++ [dquote] ++ g2 ++ [dquote] ++ py ">"
                  ++ g1 ++ py "</a>", after)
      | None => None
      end
  | None => None
  end.

End Re.

(* ------------------------------------------------------------------ *)
(** ** [format_inline] *)

Definition format_inline (text : str) : str :=
  let text := Re.sub Re.bold text in
  let text := Re.sub Re.italic text in
  let text := Re.sub Re.code text in
  let text := Re.sub Re.link text in
  text.

(* ------------------------------------------------------------------ *)
(** ** [html.escape]

    The standard library's function, with [quote=True] as [main] calls it:
    five replacements in sequence, the ampersand first. *)

Definition html_escape (s : str) : str :=
  let s := replace_char 38%N (py "&amp;") s in
  let s := replace_char 60%N (py "&lt;") s in
  let s := replace_char 62%N (py "&gt;") s in
  let s := replace_char dquote (py "&quot;") s in
  let s := replace_char 39%N (py "&#x27;") s in
  s.

(* ------------------------------------------------------------------ *)
(** ** Exceptions

    The only operation of the modelled code that can raise is list
    indexing. *)

Inductive exc (A : Type) : Type :=
| Ok (a : A)
| IndexError.
Arguments Ok {A} a.
Arguments IndexError {A}.

Definition bind {A B : Type} (e : exc A) (k : A -> exc B) : exc B :=
  match e with
  | Ok a => k a
  | IndexError => IndexError
  end.

Notation "x <- e ;; k" := (bind e (fun x => k))
  (at level 61, e at next level, right associativity).

(** [rows[i]]. *)
Definition index {A : Type} (l : list A) (i : nat) : exc A :=
  match nth_error l i with
  | Some a => Ok a
  | None => IndexError
  end.

(* ------------------------------------------------------------------ *)
(** ** [render_table] *)

Definition pipe : char := 124%N.

(** Lines 194, 208 and 217: [row.strip("|").split("|")] with every field
    stripped of whitespace. *)
Definition cells (row : str) : list str :=
  map strip (split pipe (strip_chars (py "|") row)).

(** Lines 196-198: the header loop, which skips the empty cells. *)
Definition header_loop (cols : list str) (html_parts : list str) : list str :=
  fold_left
    (fun parts c =>
       if is_empty c then parts
       else parts ++ [py "<th>" ++ format_inline c ++ py "</th>"])
    cols html_parts.

(** Lines 218-219: the data loop, which appends one cell per field. *)
Definition data_loop (clean_cols : list str) (html_parts : list str)
  : list str :=
  fold_left
    (fun parts c => parts ++ [py "<td>" ++ format_inline c ++ py "</td>"])
    clean_cols html_parts.

(** Lines 207-220: one pass of the row loop.  The loop of lines 210-214
    over [cols] appends nothing and raises nothing, so it leaves no trace
    here. *)
Definition row_body (html_parts : list str) (row : str) : list str :=
  let html_parts := html_parts ++ [py "<tr>"] in
  let clean_cols := cells (strip row) in
  let html_parts := data_loop clean_cols html_parts in
  html_parts ++ [py "</tr>"].

Definition render_table (rows : list str) : exc str :=
  match rows with
  | [] => Ok []
  | _ :: _ =>
      let html_parts := [py "<table>"] in
      header_row <- index rows 0 ;;
      let cols := cells header_row in
      let html_parts := html_parts ++ [py "<thead><tr>"] in
      let html_parts := header_loop cols html_parts in
      let html_parts := html_parts ++ [py "</tr></thead>"] in
      start_idx <-
        (if 1 <? length rows then
           row1 <- index rows 1 ;;
           Ok (if contains (py "---") row1 then 2 else 1)
         else Ok 1) ;;
      let html_parts := html_parts ++ [py "<tbody>"] in
      let html_parts := fold_left row_body (skipn start_idx rows) html_parts in
      let html_parts := html_parts ++ [py "</tbody></table>"] in
      Ok (join_empty html_parts)
  end.

(* ------------------------------------------------------------------ *)
(** ** The scan loop of [main] *)

(** The local variables of [main] that live across lines (lines 233-239). *)
Record State : Type := mkState {
  out : list str;
  in_code_block : bool;
  code_lang : str;
  in_table : bool;
  in_list : bool;
  table_buffer : list str
}.

(** [out.append(s)]. *)
Definition emit (s : str) (st : State) : State :=
  mkState (out st ++ [s]) (in_code_block st) (code_lang st) (in_table st)
    (in_list st) (table_buffer st).

Definition set_in_code_block (b : bool) (st : State) : State :=
  mkState (out st) b (code_lang st) (in_table st) (in_list st)
    (table_buffer st).

Definition set_code_lang (l : str) (st : State) : State :=
  mkState (out st) (in_code_block st) l (in_table st) (in_list st)
    (table_buffer st).

Definition set_in_table (b : bool) (st : State) : State :=
  mkState (out st) (in_code_block st) (code_lang st) b (in_list st)
    (table_buffer st).

Definition set_in_list (b : bool) (st : State) : State :=
  mkState (out st) (in_code_block st) (code_lang st) (in_table st) b
    (table_buffer st).

Definition set_table_buffer (buf : list str) (st : State) : State :=
  mkState (out st) (in_code_block st) (code_lang st) (in_table st)
    (in_list st) buf.

(** Lines 266-267 and 273-274: the buffered table is rendered, appended to
    the output and the buffer is emptied. *)
Definition flush_table (st : State) : exc State :=
  t <- render_table (table_buffer st) ;;
  Ok (set_table_buffer [] (emit t st)).

(** Lines 291-294: the length of the leading run of hash characters. *)
Fixpoint heading_level (stripped : str) : nat :=
  match stripped with
  | [] => 0
  | c :: r => if char_eqb c 35%N then S (heading_level r) else 0
  end.

(** Lines 264-268: a table row arrives while no table is open. *)
Definition open_table (st : State) : exc State :=
  if negb (in_table st) then
    st <- (if negb (is_empty (table_buffer st)) then flush_table st
           else Ok st) ;;
    Ok (set_in_table true st)
  else Ok st.

(** Lines 272-275: a line that is not a table row arrives. *)
Definition close_table (st : State) : exc State :=
  if in_table st then
    st <- flush_table st ;;
    Ok (set_in_table false st)
  else Ok st.

(** Lines 279-281. *)
Definition open_list (st : State) : State :=
  if negb (in_list st) then set_in_list true (emit (py "<ul>") st) else st.

(** Lines 285-287. *)
Definition close_list (st : State) : State :=
  if in_list st then set_in_list false (emit (py "</ul>") st) else st.

(** Line 253: the opening tag of a code block. *)
Definition code_open (lang : str) : str :=
  py "<pre><code class=" ++ [dquote] ++ py "language-" ++ lang
    ++ [dquote] ++ py ">".

(** Line 297. *)
Definition heading (level : nat) (content : str) : str :=
  py "<h" ++ str_of_nat level ++ py ">" ++ format_inline content
    ++ py "</h" ++ str_of_nat level ++ py ">".

(** Lines 301 and 303: the two tests a horizontal rule has to pass. *)
Definition is_rule (stripped : str) : bool :=
  (startswith stripped (py "---") || startswith stripped (py "***"))
  && ((3 <=? length stripped) && all_in (py "-* ") stripped).

(** Lines 242-312: the body of the loop for one line.  Each [continue] of
    the source is the end of a branch here. *)
Definition step (st : State) (line : str) : exc State :=
  let raw_line := line in
  let stripped := strip line in
  if startswith stripped (py "```") then
    if in_code_block st then
      Ok (set_in_code_block false (emit (py "</code></pre>") st))
    else
      let lang := strip (skipn 3 stripped) in
      let lang := if is_empty lang then py "java" else lang in
      Ok (set_in_code_block true (emit (code_open lang)
                                    (set_code_lang lang st)))
  else if in_code_block st then
    Ok (emit (html_escape raw_line) st)
  else if startswith stripped (py "|") then
    st <- open_table st ;;
    Ok (set_table_buffer (table_buffer st ++ [stripped]) st)
  else
    st <- close_table st ;;
    if startswith stripped (py "- ") then
      let st := open_list st in
      Ok (emit (py "<li>" ++ format_inline (skipn 2 stripped) ++ py "</li>")
            st)
    else
      let st := close_list st in
      if startswith stripped (py "#") then
        let level := heading_level stripped in
        let content := strip (skipn level stripped) in
        Ok (emit (heading level content) st)
      else if is_rule stripped then Ok (emit (py "<hr>") st)
      else if is_empty stripped then Ok st
      else Ok (emit (py "<p>" ++ format_inline stripped ++ py "</p>") st).

(** The fragments one line appends to [out]. *)
Definition emitted (st : State) (line : str) : list str :=
  match step st line with
  | Ok st' => skipn (length (out st)) (out st')
  | IndexError => []
  end.

(** Lines 241-312: the loop. *)
Fixpoint scan (st : State) (lines : list str) : exc State :=
  match lines with
  | [] => Ok st
  | line :: rest => st' <- step st line ;; scan st' rest
  end.

(** Lines 315-317: the blocks still open after the last line. *)
Definition flush_ends (st : State) : exc State :=
  let st := if in_code_block st then emit (py "</code></pre>") st else st in
  let st := if in_list st then emit (py "</ul>") st else st in
  if in_table st then
    t <- render_table (table_buffer st) ;;
    Ok (emit t st)
  else Ok st.

Section Main.

(** The page shell, [HTML_HEADER] and [HTML_FOOTER] (lines 13-175). *)
Variables HTML_HEADER HTML_FOOTER : str.

(** Lines 233-239. *)
Definition initial : State := mkState [HTML_HEADER] false [] false false [].

(** Lines 233-319: the fragment list [out] for the lines read from the
    input file. *)
Definition main_out (lines : list str) : exc (list str) :=
  st <- scan initial lines ;;
  st <- flush_ends st ;;
  Ok (out st ++ [HTML_FOOTER]).

(** Line 322: the text written to the output file. *)
Definition main_document (lines : list str) : exc str :=
  o <- main_out lines ;;
  Ok (join [newline] o).

End Main.

(* ------------------------------------------------------------------ *)
(** ** The block categories

    The guards of the loop body, in the order the loop tests them: the
    category of a line depends on the line and on whether a code block is
    open. *)

Inductive LineKind : Type :=
| CodeFence | CodeContent | TableRow | ListItem | Heading | Rule | Blank
| Paragraph.

Definition classify (in_code : bool) (line : str) : LineKind :=
  let stripped := strip line in
  if startswith stripped (py "```") then CodeFence
  else if in_code then CodeContent
  else if startswith stripped (py "|") then TableRow
  else if startswith stripped (py "- ") then ListItem
  else if startswith stripped (py "#") then Heading
  else if is_rule stripped then Rule
  else if is_empty stripped then Blank
  else Paragraph.

(* ------------------------------------------------------------------ *)
(** ** The rendering of a table, as one expression *)

Module Table.

Definition th (c : str) : str := py "<th>" ++ format_inline c ++ py "</th>".
Definition td (c : str) : str := py "<td>" ++ format_inline c ++ py "</td>".

(** The header cells that are rendered. *)
Definition header_cells (row : str) : list str :=
  filter (fun c => negb (is_empty c)) (cells row).

(** The fragments of one data row. *)
Definition tr (row : str) : list str :=
  [py "<tr>"] ++ map td (cells (strip row)) ++ [py "</tr>"].

(** The rows after the header that are rendered as data rows. *)
Definition data_rows (rest : list str) : list str :=
  match rest with
  | [] => []
  | row1 :: rest' => if contains (py "---") row1 then rest' else rest
  end.

(** The whole table for a header row and the rows after it. *)
Definition table (header_row : str) (rest : list str) : str :=
  concat ([py "<table>"; py "<thead><tr>"]
            ++ map th (header_cells header_row)
            ++ [py "</tr></thead>"; py "<tbody>"]
            ++ flat_map tr (data_rows rest)
            ++ [py "</tbody></table>"]).

End Table.

(** [s.endswith(suffix)]. *)
Definition endswith (s suffix : str) : bool :=
  startswith (rev s) (rev suffix).

(** The cell splitting in the words of the specification: one leading and
    one trailing separator are removed from the trimmed row when present,
    the rest is split on the separator and every cell is trimmed. *)
Module OneSeparator.

Definition drop_leading (c : char) (s : str) : str :=
  match s with
  | a :: r => if char_eqb a c then r else s
  | [] => []
  end.

Definition drop_trailing (c : char) (s : str) : str :=
  rev (drop_leading c (rev s)).

Definition cells (row : str) : list str :=
  map strip (split pipe (drop_trailing pipe (drop_leading pipe (strip row)))).

(** The fragments of a data row whose cells are split that way. *)
Definition tr (row : str) : list str :=
  [py "<tr>"] ++ map Table.td (cells row) ++ [py "</tr>"].

End OneSeparator.

(* ------------------------------------------------------------------ *)
(** ** The effect of a line, category by category *)

Module Scan.

(** What [render_table] returns. *)
Definition rendered (rows : list str) : str :=
  match rows with
  | [] => []
  | header_row :: rest => Table.table header_row rest
  end.

(** The state after lines 272-275. *)
Definition table_closed (st : State) : State :=
  if in_table st then
    set_in_table false
      (set_table_buffer [] (emit (rendered (table_buffer st)) st))
  else st.

(** The state after lines 264-268. *)
Definition table_opened (st : State) : State :=
  if negb (in_table st) then
    set_in_table true
      (if negb (is_empty (table_buffer st)) then
         set_table_buffer [] (emit (rendered (table_buffer st)) st)
       else st)
  else st.

(** The language of a code block opened by a fence line (lines 251-252). *)
Definition fence_lang (stripped : str) : str :=
  let lang := strip (skipn 3 stripped) in
  if is_empty lang then py "java" else lang.

(** The state a line of each category leaves. *)
Definition effect (k : LineKind) (st : State) (line : str) : State :=
  let stripped := strip line in
  match k with
  | CodeFence =>
      if in_code_block st then
        set_in_code_block false (emit (py "</code></pre>") st)
      else
        set_in_code_block true
          (emit (code_open (fence_lang stripped))
             (set_code_lang (fence_lang stripped) st))
  | CodeContent => emit (html_escape line) st
  | TableRow =>
      set_table_buffer (table_buffer (table_opened st) ++ [stripped])
        (table_opened st)
  | ListItem =>
      emit (py "<li>" ++ format_inline (skipn 2 stripped) ++ py "</li>")
        (open_list (table_closed st))
  | Heading =>
      emit (heading (heading_level stripped)
              (strip (skipn (heading_level stripped) stripped)))
        (close_list (table_closed st))
  | Rule => emit (py "<hr>") (close_list (table_closed st))
  | Blank => close_list (table_closed st)
  | Paragraph =>
      emit (py "<p>" ++ format_inline stripped ++ py "</p>")
        (close_list (table_closed st))
  end.

(** The fragments that close the blocks a line ends. *)
Definition table_close (st : State) : list str :=
  if in_table st then [rendered (table_buffer st)] else [].

Definition list_close (st : State) : list str :=
  if in_list st then [py "</ul>"] else [].

(** A buffer left behind by a table that is not open: lines 265-267. *)
Definition stale_table (st : State) : list str :=
  if negb (in_table st) && negb (is_empty (table_buffer st))
  then [rendered (table_buffer st)] else [].

Definition closing (k : LineKind) (st : State) : list str :=
  match k with
  | CodeFence | CodeContent => []
  | TableRow => stale_table st
  | ListItem => table_close st
  | Heading | Rule | Blank | Paragraph => table_close st ++ list_close st
  end.

(** The fragments a line contributes for itself. *)
Definition own (k : LineKind) (st : State) (line : str) : list str :=
  let stripped := strip line in
  match k with
  | CodeFence =>
      if in_code_block st then [py "</code></pre>"]
      else [code_open (fence_lang stripped)]
  | CodeContent => [html_escape line]
  | TableRow => []
  | ListItem =>
      (if in_list st then [] else [py "<ul>"])
        ++ [py "<li>" ++ format_inline (skipn 2 stripped) ++ py "</li>"]
  | Heading =>
      [heading (heading_level stripped)
         (strip (skipn (heading_level stripped) stripped))]
  | Rule => [py "<hr>"]
  | Blank => []
  | Paragraph => [py "<p>" ++ format_inline stripped ++ py "</p>"]
  end.

End Scan.

(** The invariant that ties the table flag to the table buffer. *)
Definition table_inv (st : State) : Prop :=
  in_table st = true <-> table_buffer st <> [].

(** The fragment that closes a code block. *)
Definition code_close (st : State) : list str :=
  if in_code_block st then [py "</code></pre>"] else [].

(** The test for a rule in the words of the specification: the trimmed line
    has at least three characters and each is a dash, an asterisk or a
    space. *)
Definition rule_shape (stripped : str) : bool :=
  (3 <=? length stripped) && all_in (py "-* ") stripped.

(** What [html.escape] does to one character. *)
Definition escape_char (c : char) : str :=
  if char_eqb c 38%N then py "&amp;"
  else if char_eqb c 60%N then py "&lt;"
  else if char_eqb c 62%N then py "&gt;"
  else if char_eqb c dquote then py "&quot;"
  else if char_eqb c 39%N then py "&#x27;"
  else [c].

(** Text without markup characters: no asterisk, no backtick, no bracket
    and no parenthesis. *)
Definition is_plain (text : str) : bool :=
  forallb (fun c => negb (char_in c (py "*`[]()"))) text.

(** The line of the round-trip property. *)
Definition sample_line : str :=
  py "**bold** and *italic* and `code` and [text](url)".

(** A state inside a code block, and a line that looks like a table row
    with bold text and markup. *)
Definition in_code_state : State :=
  mkState [py "<pre><code>"] true (py "java") false false [].

(* ------------------------------------------------------------------ *)
(** ** The guards of the loop body, on a raw line *)

(** Line 246. *)
Definition is_fence (line : str) : bool :=
  startswith (strip line) (py "```").

(** Line 263. *)
Definition is_table_row (line : str) : bool :=
  startswith (strip line) (py "|").

(** Line 278. *)
Definition is_list_item (line : str) : bool :=
  startswith (strip line) (py "- ").

(** Line 308: nothing is left of the line once it is trimmed. *)
Definition is_blank (line : str) : bool := is_empty (strip line).

(** The number of fence lines of a document. *)
Definition fence_count (lines : list str) : nat :=
  length (filter is_fence lines).

(** Line 282: the fragment of a list item. *)
Definition list_item (line : str) : str :=
  py "<li>" ++ format_inline (skipn 2 (strip line)) ++ py "</li>".

(** The characters [html.escape] replaces. *)
Definition is_special (c : char) : bool := char_in c (py "&<>" ++ [dquote; 39%N]).

(** A text in which no character is [c]. *)
Definition lacks (c : char) (text : str) : bool :=
  forallb (fun x => negb (char_eqb x c)) text.

(** A row as line 269 puts it into the buffer: trimmed, and starting with
    the cell separator. *)
Definition buffered_row (row : str) : bool :=
  startswith row (py "|") && str_eqb (strip row) row.

(* ================================================================== *)
(** * Properties *)

(** ** Strings *)

Section StringFacts.

Lemma char_eqb_eq (a b : char) : char_eqb a b = true <-> a = b.
Proof. apply N.eqb_eq. Qed.

Lemma char_eqb_neq (a b : char) : char_eqb a b = false <-> a <> b.
Proof. apply N.eqb_neq. Qed.

Lemma char_eqb_refl (a : char) : char_eqb a a = true.
Proof. apply N.eqb_refl. Qed.

Lemma str_eqb_eq (a b : str) : str_eqb a b = true <-> a = b.
Proof.
  revert b; induction a as [|x a IH]; intros [|y b]; simpl;
    try (split; [discriminate | congruence]); try tauto.
  rewrite andb_true_iff, char_eqb_eq, IH.
  split; [intros [-> ->]; reflexivity | intros [= -> ->]; auto].
Qed.

Variable p : char -> bool.

Lemma lstrip_by_head (s r : str) (c : char) :
  lstrip_by p s = c :: r -> p c = false.
Proof.
  induction s as [|a s IH]; simpl; [discriminate|].
  destruct (p a) eqn:E; [exact IH|].
  intros [= -> _]; exact E.
Qed.

Lemma rstrip_by_cons (c : char) (s : str) :
  p c = false -> rstrip_by p (c :: s) = c :: rstrip_by p s.
Proof.
  intros E; simpl. destruct (rstrip_by p s); [rewrite E|]; reflexivity.
Qed.

Lemma rstrip_by_last (s r : str) (c : char) :
  rstrip_by p s = r ++ [c] -> p c = false.
Proof.
  revert r; induction s as [|a s IH]; intros r; simpl.
  - destruct r; discriminate.
  - destruct (rstrip_by p s) as [|b t] eqn:E.
    + destruct (p a) eqn:Ea.
      * destruct r; discriminate.
      * destruct r as [|x [|y r]]; simpl; try discriminate.
        intros [= <-]; exact Ea.
    + destruct r as [|x r]; simpl; [discriminate|].
      intros [= _ H]. apply (IH r). exact H.
Qed.

(** What [strip] leaves neither starts nor ends with a stripped
    character. *)
Lemma strip_by_head (s r : str) (c : char) :
  strip_by p s = c :: r -> p c = false.
Proof.
  unfold strip_by. destruct (lstrip_by p s) as [|a t] eqn:E; simpl.
  - discriminate.
  - pose proof (lstrip_by_head _ _ _ E) as Ha.
    change (rstrip_by p (a :: t) = c :: r -> p c = false).
    rewrite (rstrip_by_cons _ _ Ha). intros [= <- _]; exact Ha.
Qed.

Lemma strip_by_last (s r : str) (c : char) :
  strip_by p s = r ++ [c] -> p c = false.
Proof. unfold strip_by. apply rstrip_by_last. Qed.

End StringFacts.

Lemma split_nonempty (sep : char) (s : str) : split sep s <> [].
Proof.
  induction s as [|c r IH]; simpl; [discriminate|].
  destruct (char_eqb c sep); [discriminate|].
  destruct (split sep r); [contradiction | discriminate].
Qed.

(** The number of fields is one more than the number of separators. *)
Lemma split_length (sep : char) (s : str) :
  length (split sep s) = S (count_occ N.eq_dec s sep).
Proof.
  induction s as [|c r IH]; simpl; [reflexivity|].
  destruct (char_eqb c sep) eqn:E.
  - apply char_eqb_eq in E; subst c.
    destruct (N.eq_dec sep sep); [|congruence]. simpl. now rewrite IH.
  - apply char_eqb_neq in E.
    destruct (N.eq_dec c sep); [congruence|].
    destruct (split sep r) eqn:Es; simpl in *; [discriminate | exact IH].
Qed.

(* ------------------------------------------------------------------ *)
(** ** [render_table] as one expression *)

Module TableFacts.
Import Table.

Lemma header_loop_eq (cols parts : list str) :
  header_loop cols parts
  = parts ++ map th (filter (fun c => negb (is_empty c)) cols).
Proof.
  unfold header_loop. revert parts.
  induction cols as [|c cols IH]; intros parts; simpl.
  - now rewrite app_nil_r.
  - rewrite IH. destruct c; simpl; [reflexivity|].
    now rewrite <- app_assoc.
Qed.

Lemma data_loop_eq (cols parts : list str) :
  data_loop cols parts = parts ++ map td cols.
Proof.
  unfold data_loop. revert parts.
  induction cols as [|c cols IH]; intros parts; simpl.
  - now rewrite app_nil_r.
  - rewrite IH. now rewrite <- app_assoc.
Qed.

Lemma row_body_eq (parts : list str) (row : str) :
  row_body parts row = parts ++ tr row.
Proof.
  unfold row_body, tr. rewrite data_loop_eq.
  now rewrite <- !app_assoc.
Qed.

Lemma row_loop_eq (rows parts : list str) :
  fold_left row_body rows parts = parts ++ flat_map tr rows.
Proof.
  revert parts. induction rows as [|r rows IH]; intros parts; simpl.
  - now rewrite app_nil_r.
  - rewrite IH, row_body_eq. now rewrite <- app_assoc.
Qed.

(** [render_table] on a non-empty buffer never raises and is [table]. *)
Lemma render_table_cons (header_row : str) (rest : list str) :
  render_table (header_row :: rest) = Ok (table header_row rest).
Proof.
  unfold render_table, table, join_empty, header_cells.
  cbn [index nth_error bind].
  destruct rest as [|row1 rest]; cbn [length Nat.ltb Nat.leb index nth_error bind].
  - rewrite row_loop_eq, header_loop_eq. cbn [skipn data_rows flat_map].
    f_equal. f_equal. rewrite <- !app_assoc. reflexivity.
  - rewrite row_loop_eq, header_loop_eq. unfold data_rows.
    destruct (contains (py "---") row1); cbn [skipn];
      f_equal; f_equal; rewrite <- !app_assoc; reflexivity.
Qed.

Lemma render_table_total (rows : list str) :
  exists t, render_table rows = Ok t.
Proof.
  destruct rows as [|h rest].
  - exists []. reflexivity.
  - exists (table h rest). apply render_table_cons.
Qed.

End TableFacts.

(* ------------------------------------------------------------------ *)
(** ** The inline formatter *)

Section InlineFacts.

(** A pattern that fails at every position of the text leaves the text as
    it is. *)
Lemma sub_loop_unmatched (m : Re.attempt) (text : str) :
  (forall prev c r, In c text -> m prev (c :: r) = None) ->
  forall prev, Re.sub_loop m prev 0 text = text.
Proof.
  induction text as [|c text IH]; intros Hm prev; simpl; [reflexivity|].
  rewrite (Hm prev c text (or_introl eq_refl)).
  f_equal. apply IH. intros prev' c' r Hin. apply Hm. now right.
Qed.

Lemma lit_head_neq (a c : char) (l r : str) :
  c <> a -> Re.lit (a :: l) (c :: r) = None.
Proof.
  intros Hne. simpl. apply char_eqb_neq in Hne. now rewrite Hne.
Qed.

Lemma bold_needs_star prev c r : c <> Re.star -> Re.bold prev (c :: r) = None.
Proof.
  intros H. unfold Re.bold. change (py "**") with [Re.star; Re.star].
  now rewrite lit_head_neq.
Qed.

Lemma italic_needs_star prev c r :
  c <> Re.star -> Re.italic prev (c :: r) = None.
Proof.
  intros H. unfold Re.italic. change (py "*") with [Re.star].
  rewrite lit_head_neq by exact H.
  now destruct (Re.preceded_by Re.star prev).
Qed.

Lemma code_needs_backtick prev c r :
  c <> 96%N -> Re.code prev (c :: r) = None.
Proof.
  intros H. unfold Re.code. change (py "`") with [96%N].
  now rewrite lit_head_neq.
Qed.

Lemma link_needs_bracket prev c r :
  c <> 91%N -> Re.link prev (c :: r) = None.
Proof.
  intros H. unfold Re.link. change (py "[") with [91%N].
  now rewrite lit_head_neq.
Qed.

End InlineFacts.

Lemma is_plain_In (text : str) (c : char) :
  is_plain text = true -> In c text ->
  c <> Re.star /\ c <> 96%N /\ c <> 91%N.
Proof.
  unfold is_plain. rewrite forallb_forall. intros H Hin.
  specialize (H c Hin). apply negb_true_iff in H.
  repeat split; intros ->; vm_compute in H; discriminate.
Qed.

(** C7: on a line of text with no markup character (no asterisk, no
    backtick, no bracket or parenthesis) the inline formatter returns the
    line unchanged. *)
Theorem format_inline_plain (text : str) :
  is_plain text = true -> format_inline text = text.
Proof.
  intros Hp. unfold format_inline, Re.sub.
  rewrite (sub_loop_unmatched Re.bold text).
  2:{ intros prev c r Hin. apply bold_needs_star.
      now destruct (is_plain_In text c Hp Hin). }
  rewrite (sub_loop_unmatched Re.italic text).
  2:{ intros prev c r Hin. apply italic_needs_star.
      now destruct (is_plain_In text c Hp Hin). }
  rewrite (sub_loop_unmatched Re.code text).
  2:{ intros prev c r Hin. apply code_needs_backtick.
      now destruct (is_plain_In text c Hp Hin) as (_ & ? & _). }
  apply sub_loop_unmatched.
  intros prev c r Hin. apply link_needs_bracket.
  now destruct (is_plain_In text c Hp Hin) as (_ & _ & ?).
Qed.

(** The property at a sentence of plain text. *)
Lemma format_inline_plain_witness :
  is_plain (py "Hello, world: 1 + 1 = 2.") = true
  /\ format_inline (py "Hello, world: 1 + 1 = 2.")
     = py "Hello, world: 1 + 1 = 2.".
Proof.
  split; [reflexivity|].
  apply (format_inline_plain (py "Hello, world: 1 + 1 = 2.")). reflexivity.
Defined.

(** C6: on the line with a bold span, an italic span, a code span and a
    link, the four substitutions run in the order bold, italic, code, link,
    each on the result of the one before, and the result holds a strong
    element around bold, an em element around italic, a code element around
    code and an anchor to url whose text is text. *)
Theorem format_inline_sample :
  (forall text,
     format_inline text
     = Re.sub Re.link (Re.sub Re.code (Re.sub Re.italic
                                         (Re.sub Re.bold text))))
  /\ Re.sub Re.bold sample_line
     = py "<strong>bold</strong> and *italic* and `code` and [text](url)"
  /\ Re.sub Re.italic (Re.sub Re.bold sample_line)
     = py "<strong>bold</strong> and <em>italic</em> and `code` and [text](url)"
  /\ Re.sub Re.code (Re.sub Re.italic (Re.sub Re.bold sample_line))
     = py "<strong>bold</strong> and <em>italic</em> and <code>code</code> and [text](url)"
  /\ format_inline sample_line
     = py "<strong>bold</strong> and <em>italic</em> and <code>code</code> and <a href="
         ++ [dquote] ++ py "url" ++ [dquote] ++ py ">text</a>"
  /\ contains (py "<strong>bold</strong>") (format_inline sample_line) = true
  /\ contains (py "<em>italic</em>") (format_inline sample_line) = true
  /\ contains (py "<code>code</code>") (format_inline sample_line) = true
  /\ contains (py "<a href=" ++ [dquote] ++ py "url" ++ [dquote]
                 ++ py ">text</a>") (format_inline sample_line) = true.
Proof.
  split; [reflexivity|].
  repeat split; vm_compute; reflexivity.
Qed.

(* ------------------------------------------------------------------ *)
(** ** Table cells *)

Lemma strip_chars_no_leading (chars s : str) (c : char) :
  char_in c chars = true -> startswith (strip_chars chars s) [c] = false.
Proof.
  intros Hc. unfold strip_chars.
  destruct (strip_by (fun c => char_in c chars) s) as [|a r] eqn:E;
    [reflexivity|].
  apply strip_by_head in E. cbn [startswith]. rewrite andb_true_r.
  destruct (char_eqb a c) eqn:Eac; [|reflexivity].
  apply char_eqb_eq in Eac; subst a. congruence.
Qed.

Lemma strip_chars_no_trailing (chars s : str) (c : char) :
  char_in c chars = true -> endswith (strip_chars chars s) [c] = false.
Proof.
  intros Hc. unfold strip_chars, endswith.
  destruct (rev (strip_by (fun c => char_in c chars) s)) as [|a r] eqn:E;
    [reflexivity|].
  assert (E' : strip_by (fun c => char_in c chars) s = rev r ++ [a]).
  { rewrite <- (rev_involutive (strip_by _ s)), E. reflexivity. }
  apply strip_by_last in E'. cbn [startswith rev app]. rewrite andb_true_r.
  destruct (char_eqb a c) eqn:Eac; [|reflexivity].
  apply char_eqb_eq in Eac; subst a. congruence.
Qed.

(** C3 as stated fails: the row [| a ||], whose last cell is empty, is
    rendered with the single cell [a], because every trailing separator is
    stripped; with one separator stripped at each end it has the cells [a]
    and the empty cell. *)
Lemma one_separator_cells_differ :
  row_body [] (py "| a ||") = [py "<tr>"; py "<td>a</td>"; py "</tr>"]
  /\ OneSeparator.tr (py "| a ||")
     = [py "<tr>"; py "<td>a</td>"; py "<td></td>"; py "</tr>"]
  /\ row_body [] (py "| a ||") <> OneSeparator.tr (py "| a ||").
Proof.
  repeat split; try (vm_compute; reflexivity).
  vm_compute. discriminate.
Qed.

(** C3, amended: every data row is rendered from the trimmed row by
    stripping all leading and all trailing separators (what is left neither
    starts nor ends with one), splitting the rest on the separator and
    trimming each cell; each cell becomes one data cell, so a row has one
    data cell more than it has inner separators, whatever the header has;
    the header row is split the same way. *)
Theorem table_cell_splitting :
  (forall parts row,
     row_body parts row
     = parts ++ [py "<tr>"]
         ++ map Table.td
              (map strip (split pipe (strip_chars (py "|") (strip row))))
         ++ [py "</tr>"])
  /\ (forall row, startswith (strip_chars (py "|") row) (py "|") = false)
  /\ (forall row, endswith (strip_chars (py "|") row) (py "|") = false)
  /\ (forall row,
        length (map Table.td (cells (strip row)))
        = S (count_occ N.eq_dec (strip_chars (py "|") (strip row)) pipe))
  /\ (forall header_row rest,
        render_table (header_row :: rest)
        = Ok (concat ([py "<table>"; py "<thead><tr>"]
                        ++ map Table.th
                             (filter (fun c => negb (is_empty c))
                                (map strip
                                   (split pipe
                                      (strip_chars (py "|") header_row))))
                        ++ [py "</tr></thead>"; py "<tbody>"]
                        ++ flat_map (row_body []) (Table.data_rows rest)
                        ++ [py "</tbody></table>"]))).
Proof.
  split; [|split; [|split; [|split]]].
  - intros parts row. rewrite TableFacts.row_body_eq. reflexivity.
  - intros row. apply strip_chars_no_leading. reflexivity.
  - intros row. apply strip_chars_no_trailing. reflexivity.
  - intros row. unfold cells. rewrite !length_map. apply split_length.
  - intros header_row rest. rewrite TableFacts.render_table_cons.
    unfold Table.table, Table.header_cells, cells.
    rewrite (flat_map_ext (row_body []) Table.tr); [reflexivity|].
    intros row. now rewrite TableFacts.row_body_eq.
Qed.

(** C10: the header loop drops the cells that are empty after trimming and
    the data loop keeps them as empty data cells, so a header never has
    more cells than the same row rendered as data, and the row [| a || b |]
    has two header cells and three data cells. *)
Theorem header_data_cell_asymmetry :
  (forall cols parts,
     header_loop cols parts
     = parts ++ map Table.th (filter (fun c => negb (is_empty c)) cols))
  /\ (forall cols parts,
        data_loop cols parts = parts ++ map Table.td cols)
  /\ (forall cols,
        length (header_loop cols []) <= length (data_loop cols []))
  /\ header_loop (cells (py "| a || b |")) []
     = [py "<th>a</th>"; py "<th>b</th>"]
  /\ data_loop (cells (py "| a || b |")) []
     = [py "<td>a</td>"; py "<td></td>"; py "<td>b</td>"]
  /\ render_table [py "| a || b |"; py "| a || b |"]
     = Ok (py "<table><thead><tr><th>a</th><th>b</th></tr></thead><tbody><tr><td>a</td><td></td><td>b</td></tr></tbody></table>").
Proof.
  split; [exact TableFacts.header_loop_eq|].
  split; [exact TableFacts.data_loop_eq|].
  split.
  - intros cols. rewrite TableFacts.header_loop_eq, TableFacts.data_loop_eq. simpl.
    rewrite !length_map. apply filter_length_le.
  - repeat split; vm_compute; reflexivity.
Qed.

(* ------------------------------------------------------------------ *)
(** ** The loop body, category by category *)

Module ScanFacts.
Import Scan.

Lemma render_table_eq (rows : list str) :
  render_table rows = Ok (rendered rows).
Proof.
  destruct rows as [|h rest]; [reflexivity | apply TableFacts.render_table_cons].
Qed.

Lemma flush_table_eq (st : State) :
  flush_table st
  = Ok (set_table_buffer [] (emit (rendered (table_buffer st)) st)).
Proof. unfold flush_table. now rewrite render_table_eq. Qed.

Lemma close_table_eq (st : State) : close_table st = Ok (table_closed st).
Proof.
  unfold close_table, table_closed.
  destruct (in_table st); [|reflexivity].
  now rewrite flush_table_eq.
Qed.

Lemma open_table_eq (st : State) : open_table st = Ok (table_opened st).
Proof.
  unfold open_table, table_opened.
  destruct (negb (in_table st)); [|reflexivity].
  destruct (negb (is_empty (table_buffer st))); [|reflexivity].
  now rewrite flush_table_eq.
Qed.

(** The loop body never raises, and what it does is fixed by the category
    of the line. *)
Lemma step_effect (st : State) (line : str) :
  step st line = Ok (effect (classify (in_code_block st) line) st line).
Proof.
  unfold step, classify, effect, fence_lang.
  destruct (startswith (strip line) (py "```")).
  { destruct (in_code_block st); reflexivity. }
  destruct (in_code_block st); [reflexivity|].
  destruct (startswith (strip line) (py "|")).
  { rewrite open_table_eq. reflexivity. }
  rewrite close_table_eq. cbn [bind].
  destruct (startswith (strip line) (py "- ")); [reflexivity|].
  destruct (startswith (strip line) (py "#")); [reflexivity|].
  destruct (is_rule (strip line)); [reflexivity|].
  destruct (is_empty (strip line)); reflexivity.
Qed.

Lemma out_table_closed (st : State) :
  out (table_closed st) = out st ++ table_close st.
Proof.
  unfold table_closed, table_close.
  destruct (in_table st); simpl; [reflexivity | now rewrite app_nil_r].
Qed.

Lemma out_close_list (st : State) :
  out (close_list st) = out st ++ list_close st.
Proof.
  unfold close_list, list_close.
  destruct (in_list st); simpl; [reflexivity | now rewrite app_nil_r].
Qed.

Lemma in_list_table_closed (st : State) :
  in_list (table_closed st) = in_list st.
Proof. unfold table_closed. now destruct (in_table st). Qed.

Lemma list_close_table_closed (st : State) :
  list_close (table_closed st) = list_close st.
Proof. unfold list_close. now rewrite in_list_table_closed. Qed.

Lemma out_table_opened (st : State) :
  out (table_opened st) = out st ++ stale_table st.
Proof.
  unfold table_opened, stale_table.
  destruct (in_table st); simpl; [now rewrite app_nil_r|].
  destruct (is_empty (table_buffer st)); simpl;
    [now rewrite app_nil_r | reflexivity].
Qed.

(** The output only grows, by the closing fragments and then the line's
    own. *)
Lemma out_effect (k : LineKind) (st : State) (line : str) :
  out (effect k st line) = out st ++ closing k st ++ own k st line.
Proof.
  destruct k; unfold effect, closing, own.
  - destruct (in_code_block st); reflexivity.
  - reflexivity.
  - cbn [set_table_buffer out]. rewrite out_table_opened.
    now rewrite app_nil_r.
  - cbn [emit out]. unfold open_list. rewrite in_list_table_closed.
    destruct (in_list st); cbn [negb set_in_list emit out];
      rewrite out_table_closed, <- !app_assoc; reflexivity.
  - cbn [emit out].
    rewrite out_close_list, out_table_closed, list_close_table_closed,
      <- !app_assoc; reflexivity.
  - cbn [emit out].
    rewrite out_close_list, out_table_closed, list_close_table_closed,
      <- !app_assoc; reflexivity.
  - rewrite out_close_list, out_table_closed, list_close_table_closed,
      <- !app_assoc, app_nil_r; reflexivity.
  - cbn [emit out].
    rewrite out_close_list, out_table_closed, list_close_table_closed,
      <- !app_assoc; reflexivity.
Qed.

End ScanFacts.

Lemma emitted_by_kind (st : State) (line : str) :
  emitted st line
  = Scan.closing (classify (in_code_block st) line) st
      ++ Scan.own (classify (in_code_block st) line) st line.
Proof.
  unfold emitted. rewrite ScanFacts.step_effect, ScanFacts.out_effect.
  rewrite skipn_app, skipn_all, Nat.sub_diag. reflexivity.
Qed.

(* ------------------------------------------------------------------ *)
(** ** Escaping *)

Lemma replace_char_app (old : char) (new a b : str) :
  replace_char old new (a ++ b)
  = replace_char old new a ++ replace_char old new b.
Proof.
  induction a as [|c a IH]; simpl; [reflexivity|].
  now rewrite IH, app_assoc.
Qed.

Lemma html_escape_app (a b : str) :
  html_escape (a ++ b) = html_escape a ++ html_escape b.
Proof. unfold html_escape. now rewrite !replace_char_app. Qed.

Lemma html_escape_one (c : char) : html_escape [c] = escape_char c.
Proof.
  unfold escape_char, dquote.
  destruct (char_eqb c 38%N) eqn:E1;
    [apply char_eqb_eq in E1; subst c; reflexivity|].
  destruct (char_eqb c 60%N) eqn:E2;
    [apply char_eqb_eq in E2; subst c; reflexivity|].
  destruct (char_eqb c 62%N) eqn:E3;
    [apply char_eqb_eq in E3; subst c; reflexivity|].
  destruct (char_eqb c 34%N) eqn:E4;
    [apply char_eqb_eq in E4; subst c; reflexivity|].
  destruct (char_eqb c 39%N) eqn:E5;
    [apply char_eqb_eq in E5; subst c; reflexivity|].
  unfold html_escape, dquote. simpl.
  rewrite E1; simpl. rewrite E2; simpl. rewrite E3; simpl.
  rewrite E4; simpl. rewrite E5; reflexivity.
Qed.

(** The five replacements amount to one pass over the characters. *)
Lemma html_escape_flat_map (s : str) :
  html_escape s = flat_map escape_char s.
Proof.
  induction s as [|c s IH]; [reflexivity|].
  change (c :: s) with ([c] ++ s).
  rewrite html_escape_app, html_escape_one, IH. reflexivity.
Qed.

(** C4: a line met while a code block is open, the fence lines apart, is
    appended to the output as the raw line with every character escaped for
    HTML and nothing else done to it; no inline formatting is applied, and
    no other variable of the scan changes, whatever block pattern the line
    matches. *)
Theorem code_block_verbatim (st : State) (line : str) :
  in_code_block st = true ->
  startswith (strip line) (py "```") = false ->
  step st line = Ok (emit (html_escape line) st)
  /\ emitted st line = [flat_map escape_char line]
  /\ classify (in_code_block st) line = CodeContent.
Proof.
  intros Hin Hfence.
  assert (Hk : classify (in_code_block st) line = CodeContent).
  { unfold classify. now rewrite Hfence, Hin. }
  split; [|split].
  - rewrite ScanFacts.step_effect, Hk. reflexivity.
  - rewrite emitted_by_kind, Hk. simpl.
    now rewrite html_escape_flat_map.
  - exact Hk.
Qed.

(** The property at a line that looks like a table row with bold text and
    markup, met inside a code block. *)
Lemma code_block_verbatim_witness :
  in_code_block in_code_state = true
  /\ startswith (strip (py "| **x** | <b> & # - |" ++ [newline])) (py "```")
     = false
  /\ step in_code_state (py "| **x** | <b> & # - |" ++ [newline])
     = Ok (emit (py "| **x** | &lt;b&gt; &amp; # - |" ++ [newline])
             in_code_state).
Proof.
  split; [reflexivity|]. split; [reflexivity|].
  exact (proj1 (code_block_verbatim in_code_state
                  (py "| **x** | <b> & # - |" ++ [newline])
                  eq_refl eq_refl)).
Defined.

(* ------------------------------------------------------------------ *)
(** ** The table flag and the table buffer *)

Section TableInvariant.

Lemma in_table_table_opened (st : State) : in_table (Scan.table_opened st) = true.
Proof.
  unfold Scan.table_opened. destruct (in_table st) eqn:E; simpl; auto.
Qed.

Lemma in_table_table_closed (st : State) :
  in_table (Scan.table_closed st) = false.
Proof.
  unfold Scan.table_closed. destruct (in_table st) eqn:E; simpl; auto.
Qed.

Lemma table_buffer_table_closed (st : State) :
  table_inv st -> table_buffer (Scan.table_closed st) = [].
Proof.
  unfold Scan.table_closed, table_inv. intros [H1 H2].
  destruct (in_table st) eqn:E; simpl; [reflexivity|].
  destruct (table_buffer st) as [|r rs]; [reflexivity|].
  assert (false = true) by (apply H2; discriminate). discriminate.
Qed.

Lemma table_inv_closed (st : State) :
  table_inv st -> table_inv (Scan.table_closed st).
Proof.
  intros H. unfold table_inv.
  rewrite in_table_table_closed, (table_buffer_table_closed st H).
  split; [discriminate | congruence].
Qed.

Lemma table_inv_open_list (st : State) : table_inv st -> table_inv (open_list st).
Proof. unfold open_list, table_inv. now destruct (in_list st). Qed.

Lemma table_inv_close_list (st : State) :
  table_inv st -> table_inv (close_list st).
Proof. unfold close_list, table_inv. now destruct (in_list st). Qed.

Lemma table_inv_emit (s : str) (st : State) : table_inv st -> table_inv (emit s st).
Proof. exact (fun H => H). Qed.

Lemma effect_table_inv (k : LineKind) (st : State) (line : str) :
  table_inv st -> table_inv (Scan.effect k st line).
Proof.
  intros H. destruct k; unfold Scan.effect.
  - destruct (in_code_block st); exact H.
  - exact H.
  - unfold table_inv. cbn [set_table_buffer in_table table_buffer].
    rewrite in_table_table_opened. split; [|reflexivity].
    intros _ E. now apply app_eq_nil in E as [_ E].
  - now apply table_inv_emit, table_inv_open_list, table_inv_closed.
  - now apply table_inv_emit, table_inv_close_list, table_inv_closed.
  - now apply table_inv_emit, table_inv_close_list, table_inv_closed.
  - now apply table_inv_close_list, table_inv_closed.
  - now apply table_inv_emit, table_inv_close_list, table_inv_closed.
Qed.

(** The scan of any lines from a state never raises, and keeps the
    invariant. *)
Lemma scan_table_inv (lines : list str) :
  forall st, table_inv st ->
  exists st', scan st lines = Ok st' /\ table_inv st'.
Proof.
  induction lines as [|line lines IH]; intros st H; simpl.
  - now exists st.
  - rewrite ScanFacts.step_effect. cbn [bind].
    apply IH. now apply effect_table_inv.
Qed.

Lemma in_table_close_list (st : State) : in_table (close_list st) = in_table st.
Proof. unfold close_list. now destruct (in_list st). Qed.

Lemma in_table_open_list (st : State) : in_table (open_list st) = in_table st.
Proof. unfold open_list. now destruct (in_list st). Qed.

End TableInvariant.

(** C9: after each line of the input, the table flag is set exactly when
    the table buffer holds a row; and from any state, a line that sets the
    flag has appended its own row to the buffer. *)
Theorem table_flag_iff_buffer :
  (forall (header : str) (lines : list str) (n : nat),
     exists st,
       scan (initial header) (firstn n lines) = Ok st
       /\ (in_table st = true <-> table_buffer st <> []))
  /\ (forall (st : State) (line : str),
        exists st',
          step st line = Ok st'
          /\ (in_table st = false -> in_table st' = true ->
              exists rows, table_buffer st' = rows ++ [strip line])).
Proof.
  split.
  - intros header lines n. apply scan_table_inv.
    unfold table_inv, initial; simpl. split; [discriminate | congruence].
  - intros st line. eexists. split; [apply ScanFacts.step_effect|].
    intros Hoff Hon.
    destruct (classify (in_code_block st) line); unfold Scan.effect in *.
    + destruct (in_code_block st); simpl in Hon; congruence.
    + simpl in Hon; congruence.
    + eexists. reflexivity.
    + cbn [emit in_table] in Hon.
      rewrite in_table_open_list, in_table_table_closed in Hon. discriminate.
    + cbn [emit in_table] in Hon.
      rewrite in_table_close_list, in_table_table_closed in Hon. discriminate.
    + cbn [emit in_table] in Hon.
      rewrite in_table_close_list, in_table_table_closed in Hon. discriminate.
    + rewrite in_table_close_list, in_table_table_closed in Hon. discriminate.
    + cbn [emit in_table] in Hon.
      rewrite in_table_close_list, in_table_table_closed in Hon. discriminate.
Qed.

(* ------------------------------------------------------------------ *)
(** ** The whole scan *)

Lemma scan_total (lines : list str) :
  forall st, exists st', scan st lines = Ok st'.
Proof.
  induction lines as [|line lines IH]; intros st; simpl.
  - now exists st.
  - rewrite ScanFacts.step_effect. cbn [bind]. apply IH.
Qed.

Lemma flush_ends_out (st : State) :
  exists st',
    flush_ends st = Ok st'
    /\ out st'
       = out st ++ code_close st ++ Scan.list_close st ++ Scan.table_close st.
Proof.
  unfold flush_ends, code_close, Scan.list_close, Scan.table_close.
  destruct st as [o c l t li b].
  cbn [in_code_block in_list in_table table_buffer out].
  destruct c, li, t;
    cbn [emit in_code_block in_list in_table table_buffer out];
    rewrite ?ScanFacts.render_table_eq; cbn [bind];
    eexists; (split; [reflexivity|]);
    cbn [emit out]; rewrite <- ?app_assoc, ?app_nil_r; reflexivity.
Qed.

Lemma main_out_eq (header footer : str) (lines : list str) (st : State) :
  scan (initial header) lines = Ok st ->
  main_out header footer lines
  = Ok (out st ++ code_close st ++ Scan.list_close st
          ++ Scan.table_close st ++ [footer]).
Proof.
  intros Hs. unfold main_out. rewrite Hs. cbn [bind].
  destruct (flush_ends_out st) as (st' & -> & Ho). cbn [bind].
  rewrite Ho, <- !app_assoc. reflexivity.
Qed.

(** C8: the parser never fails on any sequence of lines; every line falls
    into exactly one category, fixed by the guards in their order, and the
    category fixes the state and the fragments the line leaves; a blank
    line appends only the fragments that close an open table or list, a
    table row appends none when it is buffered, and the second row of a
    table, when it holds three dashes, is left out of the rendering. *)
Theorem parser_total :
  (forall header footer lines,
     exists o, main_out header footer lines = Ok o)
  /\ (forall st line,
        step st line
        = Ok (Scan.effect (classify (in_code_block st) line) st line))
  /\ (forall st line,
        emitted st line
        = Scan.closing (classify (in_code_block st) line) st
            ++ Scan.own (classify (in_code_block st) line) st line)
  /\ (forall st line,
        classify (in_code_block st) line = Blank ->
        emitted st line
        = (if in_table st then [Scan.rendered (table_buffer st)] else [])
            ++ (if in_list st then [py "</ul>"] else []))
  /\ (forall st line,
        classify (in_code_block st) line = TableRow ->
        (in_table st = true <-> table_buffer st <> []) ->
        emitted st line = [])
  /\ (forall header_row row1 rest,
        render_table (header_row :: row1 :: rest)
        = Ok (concat
                ([py "<table>"; py "<thead><tr>"]
                   ++ map Table.th (Table.header_cells header_row)
                   ++ [py "</tr></thead>"; py "<tbody>"]
                   ++ flat_map Table.tr
                        (if contains (py "---") row1 then rest
                         else row1 :: rest)
                   ++ [py "</tbody></table>"]))).
Proof.
  split; [|split; [|split; [|split; [|split]]]].
  - intros header footer lines.
    destruct (scan_total lines (initial header)) as [st Hs].
    eexists. apply (main_out_eq header footer lines st Hs).
  - exact ScanFacts.step_effect.
  - exact emitted_by_kind.
  - intros st line Hk. rewrite emitted_by_kind, Hk. simpl.
    now rewrite app_nil_r.
  - intros st line Hk [H1 H2]. rewrite emitted_by_kind, Hk. simpl.
    unfold Scan.stale_table.
    destruct (in_table st) eqn:Et; [reflexivity|].
    destruct (table_buffer st) as [|r rs]; [reflexivity|].
    assert (false = true) by (apply H2; discriminate). discriminate.
  - intros header_row row1 rest. rewrite TableFacts.render_table_cons.
    reflexivity.
Qed.

(** C5: after the last line the blocks still open are closed in the order
    code block, list, table, with the fragments a close inside the scan
    appends: the closing tag of the code block, the closing tag of the
    list, the rendering of the buffered rows; a fence that is never closed
    still gets its closing tag. *)
Theorem end_of_input_flush :
  (forall header footer lines,
     exists st t,
       scan (initial header) lines = Ok st
       /\ render_table (table_buffer st) = Ok t
       /\ main_out header footer lines
          = Ok (out st
                  ++ (if in_code_block st then [py "</code></pre>"] else [])
                  ++ (if in_list st then [py "</ul>"] else [])
                  ++ (if in_table st then [t] else [])
                  ++ [footer]))
  /\ (forall st,
        emitted (set_in_code_block true st) (py "```")
        = [py "</code></pre>"])
  /\ (forall st, out (close_list st)
                 = out st ++ (if in_list st then [py "</ul>"] else []))
  /\ (forall st,
        exists st' t,
          close_table st = Ok st'
          /\ render_table (table_buffer st) = Ok t
          /\ out st' = out st ++ (if in_table st then [t] else []))
  /\ (forall header footer,
        main_out header footer
          [py "```py" ++ [newline]; py "x < 1" ++ [newline]]
        = Ok [header; code_open (py "py"); py "x &lt; 1" ++ [newline];
              py "</code></pre>"; footer]).
Proof.
  split; [|split; [|split; [|split]]].
  - intros header footer lines.
    destruct (scan_total lines (initial header)) as [st Hs].
    exists st, (Scan.rendered (table_buffer st)).
    split; [exact Hs|]. split; [apply ScanFacts.render_table_eq|].
    apply (main_out_eq header footer lines st Hs).
  - intros st. rewrite emitted_by_kind. reflexivity.
  - exact ScanFacts.out_close_list.
  - intros st. exists (Scan.table_closed st), (Scan.rendered (table_buffer st)).
    split; [apply ScanFacts.close_table_eq|].
    split; [apply ScanFacts.render_table_eq|].
    apply ScanFacts.out_table_closed.
  - intros header footer. vm_compute. reflexivity.
Qed.

(** C1: a fence line that arrives while a table is open opens the code
    block and leaves the table open and unflushed, so that the table is
    rendered after the code block that follows it in the input; a table row
    that arrives while a list is open leaves the list open as well. *)
Theorem fence_leaves_table_open :
  scan (initial [])
    [py "| a |" ++ [newline]; py "```" ++ [newline]]
  = Ok (mkState [[]; code_open (py "java")] true (py "java") true false
          [py "| a |"])
  /\ main_out [] []
       [py "| a |" ++ [newline]; py "```" ++ [newline];
        py "x" ++ [newline]; py "```" ++ [newline]; [newline]]
     = Ok [[]; code_open (py "java"); py "x" ++ [newline];
           py "</code></pre>";
           py "<table><thead><tr><th>a</th></tr></thead><tbody></tbody></table>";
           []]
  /\ scan (initial [])
       [py "- a" ++ [newline]; py "| b |" ++ [newline];
        py "```" ++ [newline]]
     = Ok (mkState [[]; py "<ul>"; py "<li>a</li>"; code_open (py "java")]
             true (py "java") true true [py "| b |"]).
Proof.
  repeat split; vm_compute; reflexivity.
Qed.

(* ------------------------------------------------------------------ *)
(** ** Horizontal rules *)

Section RuleFacts.

(** String constants as lists of code points, in the goal and in [H]. *)
Ltac eval_py :=
  repeat match goal with
         | |- context [py ?s] =>
             let v := eval vm_compute in (py s) in change (py s) with v
         end.

Ltac eval_py_in H :=
  repeat match type of H with
         | context [py ?s] =>
             let v := eval vm_compute in (py s) in change (py s) with v in H
         end.

Lemma startswith_3 (s : str) (a : char) :
  startswith s [a; a; a] = true -> exists r, s = a :: a :: a :: r.
Proof.
  destruct s as [|x [|y [|z r]]]; cbn [startswith];
    rewrite ?andb_false_r; try discriminate.
  rewrite !andb_true_iff, !char_eqb_eq. intros (-> & -> & -> & _).
  now exists r.
Qed.

(** The length test of line 303 follows from the prefix test of line
    301. *)
Lemma is_rule_prefix (s : str) :
  is_rule s
  = (startswith s (py "---") || startswith s (py "***"))
    && all_in (py "-* ") s.
Proof.
  unfold is_rule.
  destruct (startswith s (py "---") || startswith s (py "***")) eqn:E;
    [|reflexivity].
  cbn [andb]. apply orb_true_iff in E as [E | E];
    apply startswith_3 in E as [r ->]; reflexivity.
Qed.

(** A rule is none of the categories tested before it. *)
Lemma is_rule_classify (line : str) :
  is_rule (strip line) = true -> classify false line = Rule.
Proof.
  intros H. unfold classify. rewrite H.
  unfold is_rule in H. apply andb_true_iff in H as [H _].
  apply orb_true_iff in H as [H | H];
    apply startswith_3 in H as [r ->]; reflexivity.
Qed.

Lemma classify_rule (line : str) :
  classify false line = Rule <-> is_rule (strip line) = true.
Proof.
  split; [|apply is_rule_classify].
  unfold classify.
  destruct (startswith (strip line) (py "```")); [discriminate|].
  destruct (startswith (strip line) (py "|")); [discriminate|].
  destruct (startswith (strip line) (py "- ")); [discriminate|].
  destruct (startswith (strip line) (py "#")); [discriminate|].
  destruct (is_rule (strip line)); [reflexivity|].
  destruct (is_empty (strip line)); discriminate.
Qed.

Lemma escape_char_no_lt (c : char) : ~ In 60%N (escape_char c).
Proof.
  unfold escape_char, dquote.
  destruct (char_eqb c 38%N); [vm_compute; intuition discriminate|].
  destruct (char_eqb c 60%N) eqn:E; [vm_compute; intuition discriminate|].
  destruct (char_eqb c 62%N); [vm_compute; intuition discriminate|].
  destruct (char_eqb c 34%N); [vm_compute; intuition discriminate|].
  destruct (char_eqb c 39%N); [vm_compute; intuition discriminate|].
  apply char_eqb_neq in E. intros [-> | []]. congruence.
Qed.

(** Escaped text holds no opening angle bracket. *)
Lemma html_escape_no_lt (s : str) : ~ In 60%N (html_escape s).
Proof.
  rewrite html_escape_flat_map, in_flat_map.
  intros (c & _ & H). exact (escape_char_no_lt c H).
Qed.

Lemma str_of_nat_head (n : nat) :
  exists d r, str_of_nat n = d :: r /\ (d <= 57)%N.
Proof.
  unfold str_of_nat. destruct (Nat.to_uint n); simpl;
    eexists; eexists; (split; [reflexivity | discriminate]).
Qed.

Lemma rendered_not_hr (rows : list str) : Scan.rendered rows <> py "<hr>".
Proof.
  destruct rows as [|h rest]; [discriminate|].
  unfold Scan.rendered, Table.table. cbn [app concat]. eval_py.
  discriminate.
Qed.

Lemma hr_not_closing (k : LineKind) (st : State) :
  ~ In (py "<hr>") (Scan.closing k st).
Proof.
  assert (Ht : ~ In (py "<hr>") (Scan.table_close st)).
  { unfold Scan.table_close. destruct (in_table st); [|exact (fun H => H)].
    intros [H | []]. exact (rendered_not_hr _ H). }
  assert (Hl : ~ In (py "<hr>") (Scan.list_close st)).
  { unfold Scan.list_close. destruct (in_list st); [|exact (fun H => H)].
    intros [H | []]. vm_compute in H. discriminate. }
  assert (Hs : ~ In (py "<hr>") (Scan.stale_table st)).
  { unfold Scan.stale_table.
    destruct (negb (in_table st) && negb (is_empty (table_buffer st)));
      [|exact (fun H => H)].
    intros [H | []]. exact (rendered_not_hr _ H). }
  destruct k; cbn [Scan.closing]; try exact (fun H => H); try assumption;
    intros H; apply in_app_or in H as [H | H]; auto.
Qed.

(** Only the rule branch appends the rule element. *)
Lemma hr_own (k : LineKind) (st : State) (line : str) :
  In (py "<hr>") (Scan.own k st line) -> k = Rule.
Proof.
  destruct k; cbn [Scan.own]; try reflexivity; intros H; exfalso.
  - destruct (in_code_block st); destruct H as [H | []].
    + vm_compute in H. discriminate.
    + unfold code_open in H. eval_py_in H. discriminate.
  - destruct H as [H | []].
    apply (html_escape_no_lt line). rewrite H. now left.
  - exact H.
  - apply in_app_or in H as [H | [H | []]].
    + destruct (in_list st); [exact H|].
      destruct H as [H | []]. vm_compute in H. discriminate.
    + eval_py_in H. discriminate.
  - destruct H as [H | []]. unfold heading in H.
    destruct (str_of_nat_head (heading_level (strip line)))
      as (d & r & E & Hd).
    rewrite E in H. eval_py_in H. injection H as H. subst d. vm_compute in Hd. auto.
  - exact H.
  - destruct H as [H | []]. eval_py_in H. discriminate.
Qed.

Lemma emits_hr_iff (st : State) (line : str) :
  in_code_block st = false ->
  In (py "<hr>") (emitted st line) <-> is_rule (strip line) = true.
Proof.
  intros Hc. rewrite emitted_by_kind, Hc, <- classify_rule. split.
  - intros H. apply in_app_or in H as [H | H].
    + now apply hr_not_closing in H.
    + exact (hr_own _ _ _ H).
  - intros ->. apply in_or_app. right. now left.
Qed.

End RuleFacts.

(** C2 as stated fails: the line [* * *] is no fence, table row, list item
    or heading, its trimmed text has five characters, all of them asterisks
    or spaces, and it is rendered as a paragraph, not as a rule. *)
Lemma rule_shape_without_rule :
  classify false (py "* * *" ++ [newline]) = Paragraph
  /\ rule_shape (strip (py "* * *" ++ [newline])) = true
  /\ emitted (initial []) (py "* * *" ++ [newline])
     = [py "<p><em> </em> *</p>"]
  /\ ~ In (py "<hr>") (emitted (initial []) (py "* * *" ++ [newline])).
Proof.
  split; [reflexivity|]. split; [reflexivity|].
  assert (E : emitted (initial []) (py "* * *" ++ [newline])
              = [py "<p><em> </em> *</p>"]) by (vm_compute; reflexivity).
  split; [exact E|]. rewrite E. intros [H | []].
  vm_compute in H. discriminate.
Qed.

(** C2, amended: a line scanned outside a code block, and so every line
    that no earlier rule matches, appends the rule element exactly when its
    trimmed text starts with three dashes or with three asterisks and each
    of its characters is a dash, an asterisk or a space (such a text has at
    least three characters); the lines of three dashes and of three
    asterisks are rules, a dash, a space and text is a list item, and two
    dashes followed by text are a paragraph. *)
Theorem horizontal_rule_classification :
  (forall st line,
     in_code_block st = false ->
     (In (py "<hr>") (emitted st line)
      <-> (startswith (strip line) (py "---")
           || startswith (strip line) (py "***"))
          && all_in (py "-* ") (strip line) = true))
  /\ (forall line,
        classify false line = Rule
        <-> (startswith (strip line) (py "---")
             || startswith (strip line) (py "***"))
            && all_in (py "-* ") (strip line) = true)
  /\ (forall line,
        classify false line = Rule -> rule_shape (strip line) = true)
  /\ emitted (initial []) (py "---" ++ [newline]) = [py "<hr>"]
  /\ emitted (initial []) (py "***" ++ [newline]) = [py "<hr>"]
  /\ emitted (initial []) (py "- item" ++ [newline])
     = [py "<ul>"; py "<li>item</li>"]
  /\ classify false (py "- item" ++ [newline]) = ListItem
  /\ emitted (initial []) (py "-- not quite" ++ [newline])
     = [py "<p>-- not quite</p>"]
  /\ classify false (py "-- not quite" ++ [newline]) = Paragraph.
Proof.
  split; [|split; [|split]].
  - intros st line Hc. rewrite <- is_rule_prefix. now apply emits_hr_iff.
  - intros line. rewrite <- is_rule_prefix. apply classify_rule.
  - intros line H. apply classify_rule in H. unfold is_rule in H.
    apply andb_true_iff in H as [_ H]. exact H.
  - repeat split; vm_compute; reflexivity.
Qed.

(* ================================================================== *)
(** * Further properties of the scan *)

Section ScanFields.

(** The fields the table and list helpers leave alone. *)
Lemma in_code_block_table_closed (st : State) :
  in_code_block (Scan.table_closed st) = in_code_block st.
Proof. unfold Scan.table_closed. now destruct (in_table st). Qed.

Lemma in_code_block_table_opened (st : State) :
  in_code_block (Scan.table_opened st) = in_code_block st.
Proof.
  unfold Scan.table_opened. destruct (in_table st); [reflexivity|].
  now destruct (is_empty (table_buffer st)).
Qed.

Lemma in_code_block_open_list (st : State) :
  in_code_block (open_list st) = in_code_block st.
Proof. unfold open_list. now destruct (in_list st). Qed.

Lemma in_code_block_close_list (st : State) :
  in_code_block (close_list st) = in_code_block st.
Proof. unfold close_list. now destruct (in_list st). Qed.

Lemma classify_fence (in_code : bool) (line : str) :
  is_fence line = true -> classify in_code line = CodeFence.
Proof. unfold is_fence, classify. now intros ->. Qed.

Lemma classify_not_fence (in_code : bool) (line : str) :
  is_fence line = false -> classify in_code line <> CodeFence.
Proof.
  unfold is_fence, classify. intros ->.
  destruct in_code; [discriminate|].
  destruct (startswith (strip line) (py "|")); [discriminate|].
  destruct (startswith (strip line) (py "- ")); [discriminate|].
  destruct (startswith (strip line) (py "#")); [discriminate|].
  destruct (is_rule (strip line)); [discriminate|].
  destruct (is_empty (strip line)); discriminate.
Qed.

(** Only a fence line changes the code-block flag, and it always flips
    it. *)
Lemma in_code_block_effect (st : State) (line : str) :
  in_code_block (Scan.effect (classify (in_code_block st) line) st line)
  = xorb (in_code_block st) (is_fence line).
Proof.
  destruct (is_fence line) eqn:Ef.
  - rewrite (classify_fence _ _ Ef). unfold Scan.effect.
    destruct (in_code_block st); reflexivity.
  - pose proof (classify_not_fence (in_code_block st) line Ef) as Hk.
    rewrite xorb_false_r.
    destruct (classify (in_code_block st) line); try congruence;
      unfold Scan.effect; cbn [emit set_table_buffer in_code_block];
      rewrite ?in_code_block_open_list, ?in_code_block_close_list,
        ?in_code_block_table_closed, ?in_code_block_table_opened;
      reflexivity.
Qed.

End ScanFields.

(** The output after a run of lines extends the output before it. *)
Lemma scan_out_app (st : State) (lines : list str) :
  exists st' frags,
    scan st lines = Ok st' /\ out st' = out st ++ frags.
Proof.
  revert st. induction lines as [|line lines IH]; intros st.
  - exists st, []. split; [reflexivity | now rewrite app_nil_r].
  - cbn [scan]. rewrite ScanFacts.step_effect. cbn [bind].
    destruct (IH (Scan.effect (classify (in_code_block st) line) st line))
      as (st' & frags & Hs & Ho).
    exists st'. eexists. split; [exact Hs|].
    rewrite Ho, ScanFacts.out_effect, <- !app_assoc. reflexivity.
Qed.

Lemma closing_own_length (k : LineKind) (st : State) (line : str) :
  length (Scan.closing k st ++ Scan.own k st line) <= 3.
Proof.
  rewrite length_app.
  assert (Ht : length (Scan.table_close st) <= 1)
    by (unfold Scan.table_close; destruct (in_table st); simpl; lia).
  assert (Hl : length (Scan.list_close st) <= 1)
    by (unfold Scan.list_close; destruct (in_list st); simpl; lia).
  assert (Hs : length (Scan.stale_table st) <= 1).
  { unfold Scan.stale_table.
    destruct (negb (in_table st) && negb (is_empty (table_buffer st)));
      simpl; lia. }
  destruct k; cbn [Scan.closing Scan.own]; rewrite ?length_app;
    try (destruct (in_code_block st)); try (destruct (in_list st));
    cbn [length app] in *; lia.
Qed.

(** X1: the scan never fails and only appends to the output: the fragments
    emitted before a run of lines are a prefix of the output after it, and
    the run adds at most three fragments for each of its lines. *)
Theorem scan_appends (st : State) (lines : list str) :
  exists st' frags,
    scan st lines = Ok st'
    /\ out st' = out st ++ frags
    /\ length frags <= 3 * length lines.
Proof.
  revert st. induction lines as [|line lines IH]; intros st.
  - exists st, []. split; [reflexivity|].
    split; [now rewrite app_nil_r | simpl; lia].
  - cbn [scan]. rewrite ScanFacts.step_effect. cbn [bind].
    destruct (IH (Scan.effect (classify (in_code_block st) line) st line))
      as (st' & frags & Hs & Ho & Hn).
    exists st'. eexists. split; [exact Hs|]. split.
    + rewrite Ho, ScanFacts.out_effect, <- !app_assoc. reflexivity.
    + pose proof (closing_own_length (classify (in_code_block st) line)
                    st line) as Hk.
      rewrite !length_app in *. cbn [length]. lia.
Qed.

(** X2: every fence line flips the code-block flag and no other line
    touches it, so after any lines a code block is open exactly when the
    flag was set before and the lines hold an even number of fences, or it
    was not and they hold an odd number. *)
Theorem code_block_parity (st : State) (lines : list str) :
  exists st',
    scan st lines = Ok st'
    /\ in_code_block st'
       = xorb (in_code_block st) (Nat.odd (fence_count lines)).
Proof.
  revert st. induction lines as [|line lines IH]; intros st.
  - exists st. split; [reflexivity|]. unfold fence_count. simpl.
    now rewrite xorb_false_r.
  - cbn [scan]. rewrite ScanFacts.step_effect. cbn [bind].
    destruct (IH (Scan.effect (classify (in_code_block st) line) st line))
      as (st' & Hs & Hc).
    exists st'. split; [exact Hs|].
    rewrite Hc, in_code_block_effect. unfold fence_count. cbn [filter].
    destruct (is_fence line); cbn [length].
    + rewrite Nat.odd_succ, <- Nat.negb_odd.
      destruct (in_code_block st), (Nat.odd (length (filter is_fence lines)));
        reflexivity.
    + now rewrite xorb_false_r.
Qed.

(* ------------------------------------------------------------------ *)
(** ** The page shell and blank documents *)

Lemma classify_blank (line : str) :
  is_blank line = true -> classify false line = Blank.
Proof.
  unfold is_blank, classify.
  destruct (strip line); [reflexivity | discriminate].
Qed.

Lemma scan_blank (header : str) (lines : list str) :
  forallb is_blank lines = true ->
  scan (initial header) lines = Ok (initial header).
Proof.
  induction lines as [|line lines IH]; [reflexivity|].
  cbn [forallb]. intros H. apply andb_true_iff in H as [Hb Hr].
  cbn [scan]. rewrite ScanFacts.step_effect.
  change (in_code_block (initial header)) with false.
  rewrite (classify_blank line Hb). cbn [bind].
  exact (IH Hr).
Qed.

Lemma join_cons2 (sep p q : str) (rest : list str) :
  join sep (p :: q :: rest) = p ++ sep ++ join sep (q :: rest).
Proof. reflexivity. Qed.

Lemma join_snoc (sep : str) (parts : list str) (last : str) :
  exists before, join sep (parts ++ [last]) = before ++ last.
Proof.
  induction parts as [|p parts IH].
  - exists []. reflexivity.
  - destruct IH as [before IH].
    destruct parts as [|q parts].
    + exists (p ++ sep). cbn. now rewrite <- app_assoc.
    + exists (p ++ sep ++ before).
      change ((p :: q :: parts) ++ [last]) with (p :: q :: (parts ++ [last])).
      rewrite join_cons2.
      change (q :: parts ++ [last]) with ((q :: parts) ++ [last]).
      rewrite IH, <- !app_assoc. reflexivity.
Qed.

(** X3: a document whose lines are all blank, the empty document among
    them, yields the header and the footer and nothing between them. *)
Theorem blank_document (header footer : str) (lines : list str) :
  forallb is_blank lines = true ->
  main_out header footer lines = Ok [header; footer]
  /\ main_document header footer lines
     = Ok (header ++ [newline] ++ footer).
Proof.
  intros H.
  assert (E : main_out header footer lines = Ok [header; footer]).
  { unfold main_out. rewrite (scan_blank header lines H). reflexivity. }
  split; [exact E|]. unfold main_document. rewrite E. reflexivity.
Qed.

(** The property at a document of an empty line, a line of spaces and a
    line of a tab. *)
Lemma blank_document_witness :
  forallb is_blank [[newline]; py "   " ++ [newline]; [9%N; newline]] = true
  /\ main_out (py "<html>") (py "</html>")
       [[newline]; py "   " ++ [newline]; [9%N; newline]]
     = Ok [py "<html>"; py "</html>"].
Proof.
  split; [reflexivity|].
  exact (proj1 (blank_document (py "<html>") (py "</html>")
                  [[newline]; py "   " ++ [newline]; [9%N; newline]]
                  eq_refl)).
Defined.

(** X4: whatever the lines are, the fragment list starts with the header
    and ends with the footer, and the document written to the file starts
    with the header followed by a newline and ends with the footer. *)
Theorem page_shell (header footer : str) (lines : list str) :
  exists body middle,
    main_out header footer lines = Ok (header :: body ++ [footer])
    /\ main_document header footer lines
       = Ok (header ++ [newline] ++ middle ++ footer).
Proof.
  destruct (scan_out_app (initial header) lines) as (st & frags & Hs & Ho).
  pose proof (main_out_eq header footer lines st Hs) as E.
  rewrite Ho in E. cbn [initial out] in E.
  set (body := frags ++ code_close st ++ Scan.list_close st
                 ++ Scan.table_close st).
  assert (E' : main_out header footer lines
               = Ok (header :: body ++ [footer])).
  { rewrite E. unfold body. cbn [app]. rewrite <- !app_assoc. reflexivity. }
  destruct (join_snoc [newline] body footer) as [middle Hj].
  exists body, middle. split; [exact E'|].
  unfold main_document. rewrite E'. cbn [bind].
  destruct (body ++ [footer]) as [|q rest] eqn:Eb.
  - now destruct body.
  - rewrite join_cons2, Hj. reflexivity.
Qed.

(* ------------------------------------------------------------------ *)
(** ** [html.escape] *)

Section EscapeFacts.

Lemma escape_char_cases (c : char) :
  (c = 38%N /\ escape_char c = py "&amp;")
  \/ (c = 60%N /\ escape_char c = py "&lt;")
  \/ (c = 62%N /\ escape_char c = py "&gt;")
  \/ (c = 34%N /\ escape_char c = py "&quot;")
  \/ (c = 39%N /\ escape_char c = py "&#x27;")
  \/ (is_special c = false /\ escape_char c = [c]).
Proof.
  unfold escape_char, is_special, char_in, dquote.
  cbn [existsb py app map list_ascii_of_string].
  change (N_of_ascii "&") with 38%N. change (N_of_ascii "<") with 60%N.
  change (N_of_ascii ">") with 62%N.
  destruct (char_eqb c 38%N) eqn:E1;
    [apply char_eqb_eq in E1; subst; now left|right].
  destruct (char_eqb c 60%N) eqn:E2;
    [apply char_eqb_eq in E2; subst; now left|right].
  destruct (char_eqb c 62%N) eqn:E3;
    [apply char_eqb_eq in E3; subst; now left|right].
  destruct (char_eqb c 34%N) eqn:E4;
    [apply char_eqb_eq in E4; subst; now left|right].
  destruct (char_eqb c 39%N) eqn:E5;
    [apply char_eqb_eq in E5; subst; now left|right].
  split; reflexivity.
Qed.

Lemma is_special_false (c : char) :
  is_special c = false ->
  c <> 38%N /\ c <> 60%N /\ c <> 62%N /\ c <> 34%N /\ c <> 39%N.
Proof.
  intros H. repeat split; intros ->; vm_compute in H; discriminate.
Qed.

(** The escaping of one character holds no angle bracket and no quote. *)
Lemma escape_char_safe (c : char) :
  forallb (fun x => negb (char_in x (py "<>" ++ [dquote; 39%N])))
    (escape_char c) = true.
Proof.
  destruct (escape_char_cases c)
    as [[_ ->]|[[_ ->]|[[_ ->]|[[_ ->]|[[_ ->]|[Hs ->]]]]]];
    try reflexivity.
  apply is_special_false in Hs as (_ & H2 & H3 & H4 & H5).
  apply char_eqb_neq in H2, H3, H4, H5.
  unfold char_in, dquote.
  cbn [forallb existsb py app map list_ascii_of_string].
  change (N_of_ascii "<") with 60%N. change (N_of_ascii ">") with 62%N.
  now rewrite H2, H3, H4, H5.
Qed.

(** Two characters escaped before any two texts agree only when the
    characters are equal and the rests agree. *)
Lemma escape_char_app_inj (x y : char) (a b : str) :
  escape_char x ++ a = escape_char y ++ b -> x = y /\ a = b.
Proof.
  destruct (escape_char_cases x)
    as [[Hx ->]|[[Hx ->]|[[Hx ->]|[[Hx ->]|[[Hx ->]|[Hx ->]]]]]];
    destruct (escape_char_cases y)
      as [[Hy ->]|[[Hy ->]|[[Hy ->]|[[Hy ->]|[[Hy ->]|[Hy ->]]]]]];
    try apply is_special_false in Hx as (X1 & X2 & X3 & X4 & X5);
    try apply is_special_false in Hy as (Y1 & Y2 & Y3 & Y4 & Y5);
    vm_compute; intros H; injection H; intros; subst;
    try (split; congruence); try congruence; try discriminate.
Qed.

End EscapeFacts.

(** X5: escaped text holds no angle bracket, no double quote and no
    apostrophe, whatever the line was: a line of code cannot open or close a
    tag of the page. *)
Theorem escape_removes_markup (s : str) :
  forallb (fun c => negb (char_in c (py "<>" ++ [dquote; 39%N])))
    (html_escape s) = true.
Proof.
  rewrite html_escape_flat_map.
  induction s as [|c s IH]; [reflexivity|].
  cbn [flat_map]. rewrite forallb_app, IH, escape_char_safe. reflexivity.
Qed.

(** X6: a line without ampersand, angle bracket, double quote and apostrophe
    is emitted inside a code block exactly as it was read. *)
Theorem escape_safe_text (s : str) :
  forallb (fun c => negb (is_special c)) s = true -> html_escape s = s.
Proof.
  rewrite html_escape_flat_map.
  induction s as [|c s IH]; [reflexivity|].
  cbn [forallb flat_map]. intros H. apply andb_true_iff in H as [Hc Hs].
  apply negb_true_iff in Hc.
  destruct (escape_char_cases c)
    as [[-> _]|[[-> _]|[[-> _]|[[-> _]|[[-> _]|[_ ->]]]]]];
    try (vm_compute in Hc; discriminate).
  cbn [app]. now rewrite (IH Hs).
Qed.

(** The property at a line of Java. *)
Lemma escape_safe_text_witness :
  forallb (fun c => negb (is_special c)) (py "int x = 1;" ++ [newline]) = true
  /\ html_escape (py "int x = 1;" ++ [newline])
     = py "int x = 1;" ++ [newline].
Proof.
  split; [reflexivity|].
  exact (escape_safe_text (py "int x = 1;" ++ [newline]) eq_refl).
Defined.

(** X7: escaping loses nothing: two lines with the same escaped text are
    the same line. *)
Theorem escape_injective (a b : str) :
  html_escape a = html_escape b -> a = b.
Proof.
  rewrite !html_escape_flat_map. revert b.
  induction a as [|x a IH]; intros [|y b]; cbn [flat_map].
  - reflexivity.
  - intros H. exfalso.
    destruct (escape_char_cases y)
      as [[_ E]|[[_ E]|[[_ E]|[[_ E]|[[_ E]|[_ E]]]]]];
      rewrite E in H; vm_compute in H; discriminate.
  - intros H. exfalso.
    destruct (escape_char_cases x)
      as [[_ E]|[[_ E]|[[_ E]|[[_ E]|[[_ E]|[_ E]]]]]];
      rewrite E in H; vm_compute in H; discriminate.
  - intros H. apply escape_char_app_inj in H as [-> H].
    now rewrite (IH b H).
Qed.

(** The property at a line with a comparison and an entity-like text. *)
Lemma escape_injective_witness :
  html_escape (py "a < b &lt; c") = html_escape (py "a < b &lt; c")
  /\ py "a < b &lt; c" = py "a < b &lt; c".
Proof.
  split; [reflexivity|].
  exact (escape_injective (py "a < b &lt; c") (py "a < b &lt; c") eq_refl).
Defined.

(* ------------------------------------------------------------------ *)
(** ** Runs of lines of one block *)

(** The state after the assignments of a branch, field by field. *)
Ltac run_state :=
  unfold Scan.effect, Scan.table_closed, Scan.table_opened, Scan.rendered,
    open_list, close_list;
  repeat (cbn [out in_code_block code_lang in_table in_list table_buffer
                 negb is_empty];
          unfold emit, set_in_code_block, set_code_lang, set_in_table,
            set_in_list, set_table_buffer).

Section BlockRuns.

Lemma scan_app (l1 l2 : list str) :
  forall st, scan st (l1 ++ l2) = (st' <- scan st l1 ;; scan st' l2).
Proof.
  induction l1 as [|line l1 IH]; intros st; [reflexivity|].
  cbn [app scan]. rewrite ScanFacts.step_effect. cbn [bind]. apply IH.
Qed.

Lemma classify_list_item (line : str) :
  is_list_item line = true -> classify false line = ListItem.
Proof.
  unfold is_list_item, classify. change (py "- ") with [45%N; 32%N].
  destruct (strip line) as [|a [|b r]]; cbn [startswith];
    rewrite ?andb_false_r; try discriminate.
  rewrite !andb_true_iff, !char_eqb_eq. intros (-> & -> & _). reflexivity.
Qed.

Lemma classify_table_row (line : str) :
  is_table_row line = true -> classify false line = TableRow.
Proof.
  unfold is_table_row, classify. change (py "|") with [124%N].
  destruct (strip line) as [|a r]; cbn [startswith]; try discriminate.
  rewrite !andb_true_iff, !char_eqb_eq. intros (-> & _). reflexivity.
Qed.

(** List items met while the list is open and no table is. *)
Lemma scan_list_items (items : list str) :
  forallb is_list_item items = true ->
  forall o cl buf,
    scan (mkState o false cl false true buf) items
    = Ok (mkState (o ++ map list_item items) false cl false true buf).
Proof.
  induction items as [|item items IH]; intros H o cl buf.
  - cbn. now rewrite app_nil_r.
  - cbn [forallb] in H. apply andb_true_iff in H as [Hi Hr].
    cbn [scan]. rewrite ScanFacts.step_effect.
    cbn [in_code_block]. rewrite (classify_list_item item Hi).
    cbn [bind]. run_state.
    rewrite (IH Hr). cbn [map]. rewrite <- app_assoc. reflexivity.
Qed.

(** Table rows met while the table is open. *)
Lemma scan_table_rows (rows : list str) :
  forallb is_table_row rows = true ->
  forall o cl li buf,
    scan (mkState o false cl true li buf) rows
    = Ok (mkState o false cl true li (buf ++ map strip rows)).
Proof.
  induction rows as [|row rows IH]; intros H o cl li buf.
  - cbn. now rewrite app_nil_r.
  - cbn [forallb] in H. apply andb_true_iff in H as [Hi Hr].
    cbn [scan]. rewrite ScanFacts.step_effect.
    cbn [in_code_block]. rewrite (classify_table_row row Hi).
    cbn [bind]. run_state.
    rewrite (IH Hr). cbn [map]. rewrite <- app_assoc. reflexivity.
Qed.

(** Lines met inside a code block that are no fences. *)
Lemma scan_code_content (content : list str) :
  forallb (fun line => negb (is_fence line)) content = true ->
  forall o cl t li buf,
    scan (mkState o true cl t li buf) content
    = Ok (mkState (o ++ map html_escape content) true cl t li buf).
Proof.
  induction content as [|line content IH]; intros H o cl t li buf.
  - cbn. now rewrite app_nil_r.
  - cbn [forallb] in H. apply andb_true_iff in H as [Hi Hr].
    apply negb_true_iff in Hi.
    cbn [scan]. rewrite ScanFacts.step_effect. cbn [in_code_block].
    assert (Hk : classify true line = CodeContent).
    { unfold classify. unfold is_fence in Hi. now rewrite Hi. }
    rewrite Hk. cbn [bind]. run_state.
    rewrite (IH Hr). cbn [map]. rewrite <- app_assoc. reflexivity.
Qed.

Lemma heading_level_hashes (n : nat) (rest : str) :
  startswith rest (py "#") = false ->
  heading_level (repeat 35%N n ++ rest) = n.
Proof.
  intros Hr. change (py "#") with [35%N] in Hr.
  induction n as [|n IH]; cbn [repeat app heading_level].
  - destruct rest as [|c r]; [reflexivity|].
    cbn [startswith] in Hr. rewrite andb_true_r in Hr.
    cbn [heading_level]. now rewrite Hr.
  - now rewrite IH.
Qed.

Lemma skipn_hashes (n : nat) (rest : str) :
  @skipn char n (repeat 35%N n ++ rest) = rest.
Proof. induction n as [|n IH]; [reflexivity | exact IH]. Qed.

End BlockRuns.

(** X8: consecutive list items met outside any block make one list: the
    opening tag, then one item fragment for each line, and the list stays
    open; a blank line after them appends the closing tag and nothing
    else. *)
Theorem list_run (st : State) (item : str) (items : list str)
  (blank : str) :
  in_code_block st = false -> in_table st = false -> in_list st = false ->
  forallb is_list_item (item :: items) = true ->
  is_blank blank = true ->
  scan st (item :: items)
  = Ok (mkState (out st ++ [py "<ul>"] ++ map list_item (item :: items))
          false (code_lang st) false true (table_buffer st))
  /\ scan st ((item :: items) ++ [blank])
     = Ok (mkState (out st ++ [py "<ul>"] ++ map list_item (item :: items)
                      ++ [py "</ul>"])
             false (code_lang st) false false (table_buffer st)).
Proof.
  destruct st as [o c cl t li buf]. cbn [in_code_block in_table in_list
    out code_lang table_buffer].
  intros -> -> -> H Hb.
  assert (E : scan (mkState o false cl false false buf) (item :: items)
              = Ok (mkState (o ++ [py "<ul>"] ++ map list_item (item :: items))
                      false cl false true buf)).
  { cbn [forallb] in H. apply andb_true_iff in H as [Hi Hr].
    cbn [scan]. rewrite ScanFacts.step_effect. cbn [in_code_block].
    rewrite (classify_list_item item Hi). cbn [bind].
    run_state.
    rewrite (scan_list_items items Hr). cbn [map app].
    rewrite <- !app_assoc. reflexivity. }
  split; [exact E|].
  rewrite scan_app, E. cbn [bind scan].
  rewrite ScanFacts.step_effect. cbn [in_code_block].
  rewrite (classify_blank blank Hb). cbn [bind].
  run_state.
  rewrite <- !app_assoc. reflexivity.
Qed.

(** The property at three items and an empty line, from the start of a
    document. *)
Lemma list_run_witness :
  scan (initial [])
    ([py "- one" ++ [newline]; py "- **two**" ++ [newline];
      py "- three" ++ [newline]] ++ [[newline]])
  = Ok (mkState
          ([[]] ++ [py "<ul>"]
             ++ map list_item
                  [py "- one" ++ [newline]; py "- **two**" ++ [newline];
                   py "- three" ++ [newline]]
             ++ [py "</ul>"])
          false [] false false []).
Proof.
  exact (proj2 (list_run (initial []) (py "- one" ++ [newline])
                  [py "- **two**" ++ [newline]; py "- three" ++ [newline]]
                  [newline] eq_refl eq_refl eq_refl eq_refl eq_refl)).
Defined.

(** X9: consecutive table rows met outside any block, with an empty buffer,
    append nothing: they are buffered, trimmed, in their order; a blank
    line after them appends the one table rendered from the buffer, then
    the closing tag of a list that was open, and empties the buffer. *)
Theorem table_run (st : State) (row : str) (rows : list str) (blank : str) :
  in_code_block st = false -> in_table st = false ->
  table_buffer st = [] ->
  forallb is_table_row (row :: rows) = true ->
  is_blank blank = true ->
  scan st (row :: rows)
  = Ok (mkState (out st) false (code_lang st) true (in_list st)
          (map strip (row :: rows)))
  /\ scan st ((row :: rows) ++ [blank])
     = Ok (mkState
             (out st ++ [Table.table (strip row) (map strip rows)]
                ++ (if in_list st then [py "</ul>"] else []))
             false (code_lang st) false false []).
Proof.
  destruct st as [o c cl t li buf]. cbn [in_code_block in_table in_list
    out code_lang table_buffer].
  intros -> -> -> H Hb.
  assert (E : scan (mkState o false cl false li []) (row :: rows)
              = Ok (mkState o false cl true li (map strip (row :: rows)))).
  { cbn [forallb] in H. apply andb_true_iff in H as [Hi Hr].
    cbn [scan]. rewrite ScanFacts.step_effect. cbn [in_code_block].
    rewrite (classify_table_row row Hi). cbn [bind].
    run_state.
    rewrite (scan_table_rows rows Hr). reflexivity. }
  split; [exact E|].
  rewrite scan_app, E. cbn [bind scan].
  rewrite ScanFacts.step_effect. cbn [in_code_block].
  rewrite (classify_blank blank Hb). cbn [bind].
  run_state.
  destruct li; cbn [in_table in_list emit set_in_list set_in_table
    set_table_buffer out in_code_block code_lang table_buffer];
    rewrite <- ?app_assoc, ?app_nil_r; reflexivity.
Qed.

(** The property at a header, a delimiter row and a data row. *)
Lemma table_run_witness :
  scan (initial [])
    ([py "| h1 | h2 |" ++ [newline]; py "|---|---|" ++ [newline];
      py "| 1 | 2 |" ++ [newline]] ++ [[newline]])
  = Ok (mkState
          ([[]]
             ++ [Table.table (strip (py "| h1 | h2 |" ++ [newline]))
                   (map strip [py "|---|---|" ++ [newline];
                               py "| 1 | 2 |" ++ [newline]])]
             ++ [])
          false [] false false []).
Proof.
  exact (proj2 (table_run (initial []) (py "| h1 | h2 |" ++ [newline])
                  [py "|---|---|" ++ [newline]; py "| 1 | 2 |" ++ [newline]]
                  [newline] eq_refl eq_refl eq_refl eq_refl eq_refl)).
Defined.

(** X10: a fence met outside a code block, lines that are no fences and a
    second fence append the opening tag with the language of the first
    fence (java when it names none), each line escaped and nothing else,
    and the closing tag; the code block is closed again and an open table
    or list is as it was. *)
Theorem code_block_run (st : State) (opening : str) (content : list str)
  (closing : str) :
  in_code_block st = false ->
  is_fence opening = true ->
  forallb (fun line => negb (is_fence line)) content = true ->
  is_fence closing = true ->
  scan st (opening :: content ++ [closing])
  = Ok (mkState
          (out st ++ [code_open (Scan.fence_lang (strip opening))]
             ++ map html_escape content ++ [py "</code></pre>"])
          false (Scan.fence_lang (strip opening)) (in_table st)
          (in_list st) (table_buffer st)).
Proof.
  destruct st as [o c cl t li buf]. cbn [in_code_block in_table in_list
    out code_lang table_buffer].
  intros -> Ho Hc Hcl.
  cbn [scan]. rewrite ScanFacts.step_effect. cbn [in_code_block].
  rewrite (classify_fence false opening Ho). cbn [bind].
  run_state.
  rewrite scan_app, (scan_code_content content Hc). cbn [bind scan].
  rewrite ScanFacts.step_effect. cbn [in_code_block].
  rewrite (classify_fence true closing Hcl). cbn [bind].
  run_state.
  rewrite <- !app_assoc. reflexivity.
Qed.

(** The property at a block of two lines that look like a heading and a
    list item. *)
Lemma code_block_run_witness :
  scan (initial [])
    ((py "```py" ++ [newline])
       :: [py "# x < 1" ++ [newline]; py "- y" ++ [newline]]
       ++ [py "```" ++ [newline]])
  = Ok (mkState
          ([[]]
             ++ [code_open (Scan.fence_lang (strip (py "```py" ++ [newline])))]
             ++ map html_escape
                  [py "# x < 1" ++ [newline]; py "- y" ++ [newline]]
             ++ [py "</code></pre>"])
          false (Scan.fence_lang (strip (py "```py" ++ [newline])))
          false false []).
Proof.
  exact (code_block_run (initial []) (py "```py" ++ [newline])
           [py "# x < 1" ++ [newline]; py "- y" ++ [newline]]
           (py "```" ++ [newline]) eq_refl eq_refl eq_refl eq_refl).
Defined.

Lemma classify_heading (line r : str) :
  strip line = 35%N :: r -> classify false line = Heading.
Proof. unfold classify. intros ->. reflexivity. Qed.

(** X11: outside a code block a line that starts, once trimmed, with n
    hash characters and then something else is a heading of level n, for
    every n: the level is not capped at six, and the text after the hashes
    is trimmed and formatted. *)
Theorem heading_level_unclamped (st : State) (line : str) (n : nat)
  (rest : str) :
  in_code_block st = false ->
  strip line = repeat 35%N (S n) ++ rest ->
  startswith rest (py "#") = false ->
  emitted st line
  = (if in_table st then [Scan.rendered (table_buffer st)] else [])
      ++ (if in_list st then [py "</ul>"] else [])
      ++ [py "<h" ++ str_of_nat (S n) ++ py ">"
            ++ format_inline (strip rest)
            ++ py "</h" ++ str_of_nat (S n) ++ py ">"].
Proof.
  intros Hc Hs Hr.
  rewrite emitted_by_kind, Hc.
  rewrite (classify_heading line (repeat 35%N n ++ rest)) by exact Hs.
  cbn [Scan.closing Scan.own]. rewrite Hs.
  rewrite (heading_level_hashes (S n) rest Hr), (skipn_hashes (S n) rest).
  unfold heading, Scan.table_close, Scan.list_close.
  rewrite <- !app_assoc. reflexivity.
Qed.

(** The property at a line of seven hashes and a title. *)
Lemma heading_level_unclamped_witness :
  emitted (initial []) (py "####### deep" ++ [newline])
  = [] ++ [] ++ [py "<h" ++ str_of_nat 7 ++ py ">"
                   ++ format_inline (strip (py " deep"))
                   ++ py "</h" ++ str_of_nat 7 ++ py ">"].
Proof.
  exact (heading_level_unclamped (initial [])
           (py "####### deep" ++ [newline]) 6 (py " deep")
           eq_refl eq_refl eq_refl).
Defined.

(* ================================================================== *)
(** * Further properties of the inline formatter *)

Section SubFacts.

Lemma last_cons_default {A : Type} (y d : A) (l : list A) :
  last (y :: l) d = last l y.
Proof.
  revert y d. induction l as [|z l IH]; intros y d; [reflexivity|].
  change (last (y :: z :: l) d) with (last (z :: l) d).
  now rewrite (IH z d), (IH z y).
Qed.

Lemma lacks_app (c : char) (a b : str) :
  lacks c (a ++ b) = lacks c a && lacks c b.
Proof. apply forallb_app. Qed.

Lemma lacks_In (c x : char) (t : str) :
  lacks c t = true -> In x t -> x <> c.
Proof.
  unfold lacks. rewrite forallb_forall. intros H Hin.
  apply char_eqb_neq. apply negb_true_iff. now apply H.
Qed.

Lemma lacks_head (c x : char) (t : str) :
  lacks c (x :: t) = true -> char_eqb x c = false.
Proof.
  cbn [lacks forallb]. intros H. apply andb_true_iff in H as [H _].
  now apply negb_true_iff.
Qed.

Lemma is_plain_app (a b : str) : is_plain (a ++ b) = is_plain a && is_plain b.
Proof. apply forallb_app. Qed.

(** A plain text lacks each of the six markup characters. *)
Lemma is_plain_lacks (t : str) (c : char) :
  is_plain t = true -> char_in c (py "*`[]()") = true -> lacks c t = true.
Proof.
  unfold is_plain, lacks. rewrite !forallb_forall. intros H Hc x Hin.
  specialize (H x Hin). apply negb_true_iff in H. apply negb_true_iff.
  destruct (char_eqb x c) eqn:E; [|reflexivity].
  apply char_eqb_eq in E. subst x. congruence.
Qed.

Variable m : Re.attempt.

(** The scan copies a stretch of text in which the pattern matches
    nowhere. *)
Lemma sub_loop_copy (a : str) :
  (forall ch, In ch a -> forall p r, m p (ch :: r) = None) ->
  forall prev t,
    Re.sub_loop m prev 0 (a ++ t)
    = a ++ Re.sub_loop m (last (map Some a) prev) 0 t.
Proof.
  induction a as [|ch a IH]; intros Hm prev t; [reflexivity|].
  cbn [app Re.sub_loop]. rewrite (Hm ch (or_introl eq_refl)).
  rewrite IH by (intros ch' Hin; apply Hm; now right).
  cbn [map]. now rewrite last_cons_default.
Qed.

(** The scan passes over the characters of a match. *)
Lemma sub_loop_skip (x : str) :
  forall prev t,
    Re.sub_loop m prev (length x) (x ++ t)
    = Re.sub_loop m (last (map Some x) prev) 0 t.
Proof.
  induction x as [|ch x IH]; intros prev t.
  - cbn [length app map last]. now destruct t.
  - cbn [length app Re.sub_loop]. rewrite IH.
    cbn [map]. now rewrite last_cons_default.
Qed.

(** The scan replaces a match and resumes after it. *)
Lemma sub_loop_match (x t repl : str) (prev : option char) :
  x <> [] ->
  m prev (x ++ t) = Some (repl, t) ->
  Re.sub_loop m prev 0 (x ++ t)
  = repl ++ Re.sub_loop m (last (map Some x) prev) 0 t.
Proof.
  destruct x as [|ch x]; [congruence|]. intros _ Hm.
  cbn [app] in Hm. cbn [app Re.sub_loop]. rewrite Hm. f_equal.
  assert (E : length (ch :: x ++ t) - length t - 1 = length x).
  { cbn [length]. rewrite length_app. lia. }
  rewrite E, sub_loop_skip. cbn [map]. now rewrite last_cons_default.
Qed.

End SubFacts.

Section LazyFacts.

Context {A : Type} (k : str -> option A).

(** The lazy group stops at the first place where the rest of the pattern
    matches. *)
Lemma lazy_dot_find (b t : str) (res : A) :
  lacks newline b = true ->
  (forall c r, In c b -> k (c :: r) = None) ->
  k t = Some res ->
  Re.lazy_dot k (b ++ t) = Some (b, res).
Proof.
  intros Hn Hk Ht. induction b as [|c b IH].
  - cbn [app]. destruct t; cbn [Re.lazy_dot]; now rewrite Ht.
  - cbn [app Re.lazy_dot]. rewrite (Hk c _ (or_introl eq_refl)).
    unfold Re.is_dot. rewrite (lacks_head _ _ _ Hn). cbn [negb].
    rewrite IH; [reflexivity | |].
    + cbn [lacks forallb] in Hn. now apply andb_true_iff in Hn as [_ Hn].
    + intros c' r Hin. apply Hk. now right.
Qed.

(** The lazy group fails when the rest of the pattern matches nowhere. *)
Lemma lazy_dot_none (s : str) :
  (forall c r, In c s -> k (c :: r) = None) ->
  k [] = None ->
  Re.lazy_dot k s = None.
Proof.
  intros Hk He. induction s as [|c s IH]; cbn [Re.lazy_dot].
  - now rewrite He.
  - rewrite (Hk c _ (or_introl eq_refl)).
    rewrite IH by (intros c' r Hin; apply Hk; now right).
    now destruct (Re.is_dot c).
Qed.

End LazyFacts.

Section SpanFacts.

Lemma lit_app (l r : str) : Re.lit l (l ++ r) = Some r.
Proof.
  induction l as [|a l IH]; cbn [app Re.lit]; [now destruct r|].
  now rewrite char_eqb_refl.
Qed.

Lemma lit_nil (a : char) (l : str) : Re.lit (a :: l) [] = None.
Proof. reflexivity. Qed.

Lemma preceded_by_last (c : char) (a : str) :
  lacks c a = true ->
  forall prev,
    Re.preceded_by c prev = false ->
    Re.preceded_by c (last (map Some a) prev) = false.
Proof.
  induction a as [|x a IH]; intros Hl prev Hp; [exact Hp|].
  cbn [map]. rewrite last_cons_default. apply IH.
  - cbn [lacks forallb] in Hl. now apply andb_true_iff in Hl as [_ Hl].
  - cbn [Re.preceded_by]. exact (lacks_head _ _ _ Hl).
Qed.

(** One span between two stretches in which the pattern matches
    nowhere. *)
Lemma sub_span (m : Re.attempt) (a x c repl : str) :
  (forall ch, In ch a -> forall p r, m p (ch :: r) = None) ->
  (forall ch, In ch c -> forall p r, m p (ch :: r) = None) ->
  x <> [] ->
  m (last (map Some a) None) (x ++ c) = Some (repl, c) ->
  Re.sub m (a ++ x ++ c) = a ++ repl ++ c.
Proof.
  intros Ha Hc Hx Hm. unfold Re.sub.
  rewrite (sub_loop_copy m a Ha), (sub_loop_match m x c repl _ Hx Hm).
  rewrite (sub_loop_unmatched m c); [reflexivity|].
  intros prev ch r Hin. now apply Hc.
Qed.

Lemma sub_bold_lacks (t : str) :
  lacks Re.star t = true -> Re.sub Re.bold t = t.
Proof.
  intros H. apply sub_loop_unmatched. intros prev c r Hin.
  apply bold_needs_star. exact (lacks_In _ _ _ H Hin).
Qed.

Lemma sub_italic_lacks (t : str) :
  lacks Re.star t = true -> Re.sub Re.italic t = t.
Proof.
  intros H. apply sub_loop_unmatched. intros prev c r Hin.
  apply italic_needs_star. exact (lacks_In _ _ _ H Hin).
Qed.

Lemma sub_code_lacks (t : str) :
  lacks 96%N t = true -> Re.sub Re.code t = t.
Proof.
  intros H. apply sub_loop_unmatched. intros prev c r Hin.
  apply code_needs_backtick. exact (lacks_In _ _ _ H Hin).
Qed.

Lemma sub_link_lacks (t : str) :
  lacks 91%N t = true -> Re.sub Re.link t = t.
Proof.
  intros H. apply sub_loop_unmatched. intros prev c r Hin.
  apply link_needs_bracket. exact (lacks_In _ _ _ H Hin).
Qed.

Lemma bold_match (b t : str) (prev : option char) :
  lacks Re.star b = true -> lacks newline b = true ->
  Re.bold prev ((py "**" ++ b ++ py "**") ++ t)
  = Some (py "<strong>" ++ b ++ py "</strong>", t).
Proof.
  intros Hs Hn. unfold Re.bold. rewrite <- !app_assoc, lit_app.
  rewrite (lazy_dot_find (Re.lit (py "**")) b (py "**" ++ t) t Hn);
    [reflexivity | | apply lit_app].
  intros c r Hin. change (py "**") with [Re.star; Re.star].
  apply lit_head_neq. exact (lacks_In _ _ _ Hs Hin).
Qed.

Lemma italic_match (b t : str) (prev : option char) :
  Re.preceded_by Re.star prev = false ->
  is_empty b = false ->
  lacks Re.star b = true -> lacks newline b = true ->
  Re.italic prev ((py "*" ++ b ++ py "*") ++ t)
  = Some (py "<em>" ++ b ++ py "</em>", t).
Proof.
  intros Hp He Hs Hn. unfold Re.italic. rewrite Hp.
  rewrite <- !app_assoc, lit_app.
  assert (Hb : startswith (b ++ py "*" ++ t) (py "*") = false).
  { destruct b as [|x b]; [discriminate|].
    change (py "*") with [Re.star]. cbn [app startswith].
    now rewrite (lacks_head _ _ _ Hs). }
  rewrite Hb.
  rewrite (lazy_dot_find (Re.lit (py "*")) b (py "*" ++ t) t Hn);
    [reflexivity | | apply lit_app].
  intros c r Hin. change (py "*") with [Re.star].
  apply lit_head_neq. exact (lacks_In _ _ _ Hs Hin).
Qed.

Lemma code_match (b t : str) (prev : option char) :
  lacks 96%N b = true -> lacks newline b = true ->
  Re.code prev ((py "`" ++ b ++ py "`") ++ t)
  = Some (py "<code>" ++ b ++ py "</code>", t).
Proof.
  intros Hs Hn. unfold Re.code. rewrite <- !app_assoc, lit_app.
  rewrite (lazy_dot_find (Re.lit (py "`")) b (py "`" ++ t) t Hn);
    [reflexivity | | apply lit_app].
  intros c r Hin. change (py "`") with [96%N].
  apply lit_head_neq. exact (lacks_In _ _ _ Hs Hin).
Qed.

Lemma link_match (label url t : str) (prev : option char) :
  lacks 93%N label = true -> lacks newline label = true ->
  lacks 41%N url = true -> lacks newline url = true ->
  Re.link prev ((py "[" ++ label ++ py "](" ++ url ++ py ")") ++ t)
  = Some (py "<a href=" ++ [dquote] ++ url ++ [dquote] ++ py ">"
            ++ label ++ py "</a>", t).
Proof.
  intros Hl Hln Hu Hun. unfold Re.link. rewrite <- !app_assoc, lit_app.
  rewrite (lazy_dot_find _ label (py "](" ++ url ++ py ")" ++ t) (url, t) Hln);
    [reflexivity | |].
  - intros c r Hin. change (py "](") with [93%N; 40%N].
    rewrite lit_head_neq; [reflexivity|]. exact (lacks_In _ _ _ Hl Hin).
  - rewrite lit_app.
    apply (lazy_dot_find (Re.lit (py ")")) url (py ")" ++ t) t Hun);
      [|apply lit_app].
    intros c r Hin. change (py ")") with [41%N].
    apply lit_head_neq. exact (lacks_In _ _ _ Hu Hin).
Qed.

End SpanFacts.

(** Side conditions: a text put together from plain texts and tags lacks a
    markup character. *)
Ltac solve_lacks :=
  rewrite ?lacks_app; repeat (apply andb_true_intro; split);
  first [ reflexivity
        | apply is_plain_lacks; [assumption | reflexivity] ].

Ltac fails_on_plain H lemma :=
  let ch := fresh "ch" in
  let Hin := fresh "Hin" in
  let p := fresh "p" in
  let r := fresh "r" in
  intros ch Hin p r; apply lemma;
  refine (lacks_In _ _ _ _ Hin); apply is_plain_lacks;
  [exact H | reflexivity].

(** X12: a span between double asterisks, with plain text before, inside
    and after it and no newline inside, becomes a strong element around the
    inner text; the rest of the line is as it was. *)
Theorem bold_span (a b c : str) :
  is_plain a = true -> is_plain b = true -> is_plain c = true ->
  lacks newline b = true ->
  format_inline (a ++ py "**" ++ b ++ py "**" ++ c)
  = a ++ py "<strong>" ++ b ++ py "</strong>" ++ c.
Proof.
  intros Ha Hb Hc Hn. unfold format_inline.
  replace (a ++ py "**" ++ b ++ py "**" ++ c)
    with (a ++ (py "**" ++ b ++ py "**") ++ c)
    by (now rewrite <- !app_assoc).
  rewrite (sub_span Re.bold a _ c (py "<strong>" ++ b ++ py "</strong>")).
  - rewrite <- !app_assoc.
    rewrite sub_italic_lacks by solve_lacks.
    rewrite sub_code_lacks by solve_lacks.
    rewrite sub_link_lacks by solve_lacks.
    reflexivity.
  - fails_on_plain Ha bold_needs_star.
  - fails_on_plain Hc bold_needs_star.
  - discriminate.
  - apply bold_match; [|exact Hn]. apply is_plain_lacks; [exact Hb|reflexivity].
Qed.

(** The property at a sentence with one bold word. *)
Lemma bold_span_witness :
  format_inline (py "a " ++ py "**" ++ py "very" ++ py "**" ++ py " big b")
  = py "a " ++ py "<strong>" ++ py "very" ++ py "</strong>" ++ py " big b".
Proof.
  exact (bold_span (py "a ") (py "very") (py " big b")
           eq_refl eq_refl eq_refl eq_refl).
Defined.

Section UnmatchedFacts.

(** The scan keeps a character at which the pattern fails. *)
Lemma sub_loop_step_none (m : Re.attempt) (prev : option char) (ch : char)
  (t : str) :
  m prev (ch :: t) = None ->
  Re.sub_loop m prev 0 (ch :: t) = ch :: Re.sub_loop m (Some ch) 0 t.
Proof. intros H. cbn [Re.sub_loop]. now rewrite H. Qed.

Lemma startswith_lacks (c0 : char) (t : str) :
  lacks c0 t = true -> startswith t [c0] = false.
Proof.
  destruct t as [|x t]; [reflexivity|]. intros H.
  cbn [startswith]. now rewrite (lacks_head _ _ _ H).
Qed.

Lemma startswith_lacks_app (c0 : char) (b u : str) :
  lacks c0 b = true -> is_empty b = false ->
  startswith (b ++ u) [c0] = false.
Proof.
  destruct b as [|x b]; [discriminate|]. intros H _.
  cbn [app startswith]. now rewrite (lacks_head _ _ _ H).
Qed.

(** Two stars are needed to open a bold span. *)
Lemma bold_lone_star (t : str) (prev : option char) :
  startswith t [Re.star] = false -> Re.bold prev (Re.star :: t) = None.
Proof.
  intros H. unfold Re.bold. change (py "**") with [Re.star; Re.star].
  destruct t as [|x t]; [reflexivity|].
  cbn [startswith] in H. rewrite andb_true_r in H.
  cbn [Re.lit]. rewrite char_eqb_refl. now rewrite H.
Qed.

(** An opened bold span with no closing stars after it. *)
Lemma bold_unclosed (c : str) (prev : option char) :
  lacks Re.star c = true -> Re.bold prev (py "**" ++ c) = None.
Proof.
  intros H. unfold Re.bold. rewrite lit_app.
  rewrite lazy_dot_none; [reflexivity | | reflexivity].
  intros x r Hin. change (py "**") with [Re.star; Re.star].
  apply lit_head_neq. exact (lacks_In _ _ _ H Hin).
Qed.

Lemma italic_unclosed (c : str) (prev : option char) :
  lacks Re.star c = true -> Re.italic prev (Re.star :: c) = None.
Proof.
  intros H. unfold Re.italic.
  destruct (Re.preceded_by Re.star prev); [reflexivity|].
  change (Re.star :: c) with (py "*" ++ c). rewrite lit_app.
  change (py "*") with [Re.star]. rewrite (startswith_lacks _ _ H).
  rewrite lazy_dot_none; [reflexivity | | reflexivity].
  intros x r Hin. apply lit_head_neq. exact (lacks_In _ _ _ H Hin).
Qed.

(** The lookahead: a star followed by a star opens no italic span. *)
Lemma italic_before_star (t : str) (prev : option char) :
  Re.italic prev (Re.star :: Re.star :: t) = None.
Proof.
  unfold Re.italic. destruct (Re.preceded_by Re.star prev); reflexivity.
Qed.

(** The lookbehind: a star preceded by a star opens no italic span. *)
Lemma italic_after_star (t : str) :
  Re.italic (Some Re.star) t = None.
Proof. reflexivity. Qed.

Lemma code_unclosed (c : str) (prev : option char) :
  lacks 96%N c = true -> Re.code prev (96%N :: c) = None.
Proof.
  intros H. unfold Re.code.
  change (96%N :: c) with (py "`" ++ c). rewrite lit_app.
  rewrite lazy_dot_none; [reflexivity | | reflexivity].
  intros x r Hin. change (py "`") with [96%N].
  apply lit_head_neq. exact (lacks_In _ _ _ H Hin).
Qed.

Lemma link_unclosed (c : str) (prev : option char) :
  lacks 93%N c = true -> Re.link prev (91%N :: c) = None.
Proof.
  intros H. unfold Re.link.
  change (91%N :: c) with (py "[" ++ c). rewrite lit_app.
  rewrite lazy_dot_none; [reflexivity | | reflexivity].
  intros x r Hin. change (py "](") with [93%N; 40%N].
  rewrite lit_head_neq; [reflexivity|]. exact (lacks_In _ _ _ H Hin).
Qed.

(** One character at which the pattern fails, between two stretches in
    which it matches nowhere. *)
Lemma sub_lone (m : Re.attempt) (a c : str) (ch : char) :
  (forall x, In x a -> forall p r, m p (x :: r) = None) ->
  (forall x, In x c -> forall p r, m p (x :: r) = None) ->
  (forall p, m p (ch :: c) = None) ->
  Re.sub m (a ++ ch :: c) = a ++ ch :: c.
Proof.
  intros Ha Hc Hm. unfold Re.sub.
  rewrite (sub_loop_copy m a Ha), (sub_loop_step_none m _ ch c (Hm _)).
  rewrite (sub_loop_unmatched m c); [reflexivity|].
  intros prev x r Hin. now apply Hc.
Qed.

End UnmatchedFacts.

(** X13: a span between single asterisks, with plain text before and after
    it and a plain, non-empty text without newline inside, becomes an em
    element around the inner text; the bold pass before it changes
    nothing. *)
Theorem italic_span (a b c : str) :
  is_plain a = true -> is_plain b = true -> is_plain c = true ->
  is_empty b = false -> lacks newline b = true ->
  format_inline (a ++ py "*" ++ b ++ py "*" ++ c)
  = a ++ py "<em>" ++ b ++ py "</em>" ++ c.
Proof.
  intros Ha Hb Hc He Hn.
  assert (Hsa : lacks Re.star a = true)
    by (apply is_plain_lacks; [exact Ha | reflexivity]).
  assert (Hsb : lacks Re.star b = true)
    by (apply is_plain_lacks; [exact Hb | reflexivity]).
  assert (Hsc : lacks Re.star c = true)
    by (apply is_plain_lacks; [exact Hc | reflexivity]).
  unfold format_inline.
  assert (E1 : Re.sub Re.bold (a ++ py "*" ++ b ++ py "*" ++ c)
               = a ++ py "*" ++ b ++ py "*" ++ c).
  { unfold Re.sub. change (py "*") with [Re.star]. cbn [app].
    rewrite (sub_loop_copy Re.bold a)
      by (fails_on_plain Ha bold_needs_star).
    rewrite sub_loop_step_none
      by (apply bold_lone_star, startswith_lacks_app; assumption).
    rewrite (sub_loop_copy Re.bold b)
      by (fails_on_plain Hb bold_needs_star).
    rewrite sub_loop_step_none
      by (apply bold_lone_star, startswith_lacks; assumption).
    rewrite (sub_loop_unmatched Re.bold c); [reflexivity|].
    intros prev x r Hin. apply bold_needs_star.
    exact (lacks_In _ _ _ Hsc Hin). }
  rewrite E1.
  replace (a ++ py "*" ++ b ++ py "*" ++ c)
    with (a ++ (py "*" ++ b ++ py "*") ++ c)
    by (now rewrite <- !app_assoc).
  rewrite (sub_span Re.italic a _ c (py "<em>" ++ b ++ py "</em>")).
  - rewrite <- !app_assoc.
    rewrite sub_code_lacks by solve_lacks.
    rewrite sub_link_lacks by solve_lacks.
    reflexivity.
  - fails_on_plain Ha italic_needs_star.
  - fails_on_plain Hc italic_needs_star.
  - discriminate.
  - apply italic_match; try assumption.
    now apply preceded_by_last.
Qed.

(** The property at a sentence with one word in italics. *)
Lemma italic_span_witness :
  format_inline (py "a " ++ py "*" ++ py "very" ++ py "*" ++ py " big b")
  = py "a " ++ py "<em>" ++ py "very" ++ py "</em>" ++ py " big b".
Proof.
  exact (italic_span (py "a ") (py "very") (py " big b")
           eq_refl eq_refl eq_refl eq_refl eq_refl).
Defined.

(** X14: a span between backticks, with plain text before, inside and
    after it and no newline inside, becomes a code element around the inner
    text. *)
Theorem code_span (a b c : str) :
  is_plain a = true -> is_plain b = true -> is_plain c = true ->
  lacks newline b = true ->
  format_inline (a ++ py "`" ++ b ++ py "`" ++ c)
  = a ++ py "<code>" ++ b ++ py "</code>" ++ c.
Proof.
  intros Ha Hb Hc Hn. unfold format_inline.
  rewrite sub_bold_lacks by solve_lacks.
  rewrite sub_italic_lacks by solve_lacks.
  replace (a ++ py "`" ++ b ++ py "`" ++ c)
    with (a ++ (py "`" ++ b ++ py "`") ++ c)
    by (now rewrite <- !app_assoc).
  rewrite (sub_span Re.code a _ c (py "<code>" ++ b ++ py "</code>")).
  - rewrite <- !app_assoc.
    rewrite sub_link_lacks by solve_lacks.
    reflexivity.
  - fails_on_plain Ha code_needs_backtick.
  - fails_on_plain Hc code_needs_backtick.
  - discriminate.
  - apply code_match; [|exact Hn]. apply is_plain_lacks; [exact Hb|reflexivity].
Qed.

(** The property at a sentence that names a class. *)
Lemma code_span_witness :
  format_inline (py "use " ++ py "`" ++ py "Singleton" ++ py "`" ++ py " here")
  = py "use " ++ py "<code>" ++ py "Singleton" ++ py "</code>" ++ py " here".
Proof.
  exact (code_span (py "use ") (py "Singleton") (py " here")
           eq_refl eq_refl eq_refl eq_refl).
Defined.

(** X15: a link, a label in brackets followed by a target in parentheses,
    with plain text before, in the label, in the target and after it and no
    newline in label and target, becomes an anchor whose href is the target
    and whose text is the label. *)
Theorem link_span (a label url c : str) :
  is_plain a = true -> is_plain label = true -> is_plain url = true ->
  is_plain c = true ->
  lacks newline label = true -> lacks newline url = true ->
  format_inline (a ++ py "[" ++ label ++ py "](" ++ url ++ py ")" ++ c)
  = a ++ py "<a href=" ++ [dquote] ++ url ++ [dquote] ++ py ">"
      ++ label ++ py "</a>" ++ c.
Proof.
  intros Ha Hl Hu Hc Hln Hun. unfold format_inline.
  rewrite sub_bold_lacks by solve_lacks.
  rewrite sub_italic_lacks by solve_lacks.
  rewrite sub_code_lacks by solve_lacks.
  replace (a ++ py "[" ++ label ++ py "](" ++ url ++ py ")" ++ c)
    with (a ++ (py "[" ++ label ++ py "](" ++ url ++ py ")") ++ c)
    by (now rewrite <- !app_assoc).
  rewrite (sub_span Re.link a _ c
             (py "<a href=" ++ [dquote] ++ url ++ [dquote] ++ py ">"
                ++ label ++ py "</a>")).
  - rewrite <- !app_assoc. reflexivity.
  - fails_on_plain Ha link_needs_bracket.
  - fails_on_plain Hc link_needs_bracket.
  - discriminate.
  - apply link_match; try assumption;
      apply is_plain_lacks; try assumption; reflexivity.
Qed.

(** The property at a sentence with one link. *)
Lemma link_span_witness :
  format_inline
    (py "see " ++ py "[" ++ py "the guide" ++ py "](" ++ py "guide.html"
       ++ py ")" ++ py ".")
  = py "see " ++ py "<a href=" ++ [dquote] ++ py "guide.html" ++ [dquote]
      ++ py ">" ++ py "the guide" ++ py "</a>" ++ py ".".
Proof.
  exact (link_span (py "see ") (py "the guide") (py "guide.html") (py ".")
           eq_refl eq_refl eq_refl eq_refl eq_refl eq_refl).
Defined.

(** X16: a marker that opens a span which is never closed stays in the
    text: with plain text before and after it, one asterisk, two asterisks,
    one backtick or one opening bracket are left as they are. *)
Theorem unmatched_marker_literal (a c : str) :
  is_plain a = true -> is_plain c = true ->
  format_inline (a ++ py "*" ++ c) = a ++ py "*" ++ c
  /\ format_inline (a ++ py "**" ++ c) = a ++ py "**" ++ c
  /\ format_inline (a ++ py "`" ++ c) = a ++ py "`" ++ c
  /\ format_inline (a ++ py "[" ++ c) = a ++ py "[" ++ c.
Proof.
  intros Ha Hc.
  assert (Hsc : lacks Re.star c = true)
    by (apply is_plain_lacks; [exact Hc | reflexivity]).
  unfold format_inline. split; [|split; [|split]].
  - change (py "*") with [Re.star]. cbn [app].
    rewrite (sub_lone Re.bold a c Re.star);
      [| fails_on_plain Ha bold_needs_star
       | fails_on_plain Hc bold_needs_star
       | intros p; apply bold_lone_star, startswith_lacks; exact Hsc ].
    rewrite (sub_lone Re.italic a c Re.star);
      [| fails_on_plain Ha italic_needs_star
       | fails_on_plain Hc italic_needs_star
       | intros p; apply italic_unclosed; exact Hsc ].
    change (a ++ Re.star :: c) with (a ++ py "*" ++ c).
    rewrite sub_code_lacks by solve_lacks.
    rewrite sub_link_lacks by solve_lacks.
    reflexivity.
  - assert (E1 : Re.sub Re.bold (a ++ py "**" ++ c) = a ++ py "**" ++ c).
    { unfold Re.sub.
      rewrite (sub_loop_copy Re.bold a)
        by (fails_on_plain Ha bold_needs_star).
      rewrite (sub_loop_step_none Re.bold _ Re.star (Re.star :: c))
        by (apply (bold_unclosed c); exact Hsc).
      rewrite sub_loop_step_none
        by (apply bold_lone_star, startswith_lacks; exact Hsc).
      rewrite (sub_loop_unmatched Re.bold c); [reflexivity|].
      intros prev x r Hin. apply bold_needs_star.
      exact (lacks_In _ _ _ Hsc Hin). }
    assert (E2 : Re.sub Re.italic (a ++ py "**" ++ c) = a ++ py "**" ++ c).
    { unfold Re.sub.
      rewrite (sub_loop_copy Re.italic a)
        by (fails_on_plain Ha italic_needs_star).
      rewrite (sub_loop_step_none Re.italic _ Re.star (Re.star :: c))
        by apply italic_before_star.
      rewrite sub_loop_step_none by apply italic_after_star.
      rewrite (sub_loop_unmatched Re.italic c); [reflexivity|].
      intros prev x r Hin. apply italic_needs_star.
      exact (lacks_In _ _ _ Hsc Hin). }
    rewrite E1, E2.
    rewrite sub_code_lacks by solve_lacks.
    rewrite sub_link_lacks by solve_lacks.
    reflexivity.
  - rewrite sub_bold_lacks by solve_lacks.
    rewrite sub_italic_lacks by solve_lacks.
    change (py "`") with [96%N]. cbn [app].
    rewrite (sub_lone Re.code a c 96%N);
      [| fails_on_plain Ha code_needs_backtick
       | fails_on_plain Hc code_needs_backtick
       | intros p; apply code_unclosed;
         apply is_plain_lacks; [exact Hc | reflexivity] ].
    change (a ++ 96%N :: c) with (a ++ py "`" ++ c).
    rewrite sub_link_lacks by solve_lacks.
    reflexivity.
  - rewrite sub_bold_lacks by solve_lacks.
    rewrite sub_italic_lacks by solve_lacks.
    rewrite sub_code_lacks by solve_lacks.
    change (py "[") with [91%N]. cbn [app].
    apply (sub_lone Re.link a c 91%N);
      [ fails_on_plain Ha link_needs_bracket
      | fails_on_plain Hc link_needs_bracket
      | intros p; apply link_unclosed;
        apply is_plain_lacks; [exact Hc | reflexivity] ].
Qed.

(** The property at a product written with an asterisk. *)
Lemma unmatched_marker_literal_witness :
  format_inline (py "2 " ++ py "*" ++ py " 3 = 6") = py "2 " ++ py "*" ++ py " 3 = 6".
Proof.
  exact (proj1 (unmatched_marker_literal (py "2 ") (py " 3 = 6")
                  eq_refl eq_refl)).
Defined.

(* ================================================================== *)
(** * Trimming, and what the scan makes of it *)

Section StripFacts.

Variable p : char -> bool.

Lemma lstrip_by_fixed (s : str) :
  (forall c r, s = c :: r -> p c = false) -> lstrip_by p s = s.
Proof.
  destruct s as [|c r]; [reflexivity|]. intros H.
  cbn [lstrip_by]. now rewrite (H c r eq_refl).
Qed.

Lemma rstrip_by_fixed (s : str) :
  (forall r c, s = r ++ [c] -> p c = false) -> rstrip_by p s = s.
Proof.
  induction s as [|c s IH]; [reflexivity|]. intros H.
  destruct s as [|x s].
  - cbn [rstrip_by]. now rewrite (H [] c eq_refl).
  - assert (E : rstrip_by p (x :: s) = x :: s).
    { apply IH. intros r c' Hr. apply (H (c :: r) c'). now rewrite Hr. }
    change (rstrip_by p (c :: x :: s))
      with (match rstrip_by p (x :: s) with
            | [] => if p c then [] else [c]
            | r' => c :: r'
            end).
    now rewrite E.
Qed.

(** Trimming twice is trimming once. *)
Lemma strip_by_idem (s : str) : strip_by p (strip_by p s) = strip_by p s.
Proof.
  unfold strip_by at 1.
  rewrite lstrip_by_fixed by (intros c r; apply strip_by_head).
  apply rstrip_by_fixed. intros r c. apply strip_by_last.
Qed.

End StripFacts.

Lemma strip_idem (s : str) : strip (strip s) = strip s.
Proof. apply strip_by_idem. Qed.

Lemma str_eqb_refl (s : str) : str_eqb s s = true.
Proof. now apply str_eqb_eq. Qed.

Section BufferFacts.

Lemma buffer_table_closed (st : State) :
  forallb buffered_row (table_buffer st) = true ->
  forallb buffered_row (table_buffer (Scan.table_closed st)) = true.
Proof. unfold Scan.table_closed. now destruct (in_table st). Qed.

Lemma buffer_table_opened (st : State) :
  forallb buffered_row (table_buffer st) = true ->
  forallb buffered_row (table_buffer (Scan.table_opened st)) = true.
Proof.
  unfold Scan.table_opened. destruct (in_table st); [auto|].
  now destruct (is_empty (table_buffer st)).
Qed.

Lemma table_buffer_open_list (st : State) :
  table_buffer (open_list st) = table_buffer st.
Proof. unfold open_list. now destruct (in_list st). Qed.

Lemma table_buffer_close_list (st : State) :
  table_buffer (close_list st) = table_buffer st.
Proof. unfold close_list. now destruct (in_list st). Qed.

Lemma buffer_effect (st : State) (line : str) :
  forallb buffered_row (table_buffer st) = true ->
  forallb buffered_row
    (table_buffer (Scan.effect (classify (in_code_block st) line) st line))
  = true.
Proof.
  intros H. destruct (classify (in_code_block st) line) eqn:Ek;
    unfold Scan.effect;
    cbn [emit set_table_buffer set_in_code_block set_code_lang table_buffer];
    rewrite ?table_buffer_open_list, ?table_buffer_close_list;
    try (now apply buffer_table_closed).
  - now destruct (in_code_block st).
  - exact H.
  - rewrite forallb_app, (buffer_table_opened st H).
    cbn [forallb]. rewrite andb_true_r. unfold buffered_row.
    rewrite strip_idem, str_eqb_refl, andb_true_r.
    unfold classify in Ek.
    destruct (startswith (strip line) (py "```")); [discriminate|].
    destruct (in_code_block st); [discriminate|].
    destruct (startswith (strip line) (py "|")); [reflexivity|].
    destruct (startswith (strip line) (py "- ")); [discriminate|].
    destruct (startswith (strip line) (py "#")); [discriminate|].
    destruct (is_rule (strip line)); [discriminate|].
    destruct (is_empty (strip line)); discriminate.
Qed.

Lemma scan_buffer (lines : list str) :
  forall st,
    forallb buffered_row (table_buffer st) = true ->
    exists st',
      scan st lines = Ok st'
      /\ forallb buffered_row (table_buffer st') = true.
Proof.
  induction lines as [|line lines IH]; intros st H.
  - now exists st.
  - cbn [scan]. rewrite ScanFacts.step_effect. cbn [bind].
    apply IH. now apply buffer_effect.
Qed.

Lemma format_inline_unmarked (t : str) :
  is_plain t = true -> format_inline t = t.
Proof.
  intros H. unfold format_inline.
  rewrite sub_bold_lacks by solve_lacks.
  rewrite sub_italic_lacks by solve_lacks.
  rewrite sub_code_lacks by solve_lacks.
  rewrite sub_link_lacks by solve_lacks.
  reflexivity.
Qed.

End BufferFacts.

(** X17: every row the scan holds in the table buffer is a trimmed line
    that starts with the cell separator, so that a table is never rendered
    from an empty header row and the trimming of line 217 changes no
    row. *)
Theorem table_buffer_rows (header : str) (lines : list str) :
  exists st,
    scan (initial header) lines = Ok st
    /\ forallb buffered_row (table_buffer st) = true
    /\ Forall (fun row => cells (strip row) = cells row /\ row <> [])
         (table_buffer st).
Proof.
  destruct (scan_buffer lines (initial header) eq_refl) as (st & Hs & Hb).
  exists st. split; [exact Hs|]. split; [exact Hb|].
  apply Forall_forall. intros row Hin.
  rewrite forallb_forall in Hb. specialize (Hb row Hin).
  unfold buffered_row in Hb. apply andb_true_iff in Hb as [H1 H2].
  apply str_eqb_eq in H2. split; [now rewrite H2|].
  intros ->. discriminate.
Qed.

(** X18: outside a code block the white space around a line does not
    count: an indented line is scanned as the line without its
    indentation. *)
Theorem indentation_ignored (st : State) (line : str) :
  in_code_block st = false ->
  step st line = step st (strip line).
Proof.
  intros Hc. unfold step. rewrite strip_idem, Hc.
  destruct (startswith (strip line) (py "```")); reflexivity.
Qed.

(** The property at an indented list item. *)
Lemma indentation_ignored_witness :
  step (initial []) (py "    - nested item  " ++ [newline])
  = step (initial []) (strip (py "    - nested item  " ++ [newline])).
Proof.
  exact (indentation_ignored (initial [])
           (py "    - nested item  " ++ [newline]) eq_refl).
Defined.

(** X19: outside a code block, a line that is no fence and no table row
    closes the table: the flag is cleared and, when flag and buffer agreed
    before, the buffer is empty; the list is open after the line exactly
    when the line is a list item. *)
Theorem block_closed_on_transition (st : State) (line : str) :
  in_code_block st = false ->
  is_fence line = false ->
  is_table_row line = false ->
  (in_table st = true <-> table_buffer st <> []) ->
  exists st',
    step st line = Ok st'
    /\ in_table st' = false
    /\ table_buffer st' = []
    /\ in_list st' = is_list_item line
    /\ in_code_block st' = false.
Proof.
  intros Hc Hf Ht Hinv. eexists. split; [apply ScanFacts.step_effect|].
  rewrite Hc. unfold classify.
  unfold is_fence in Hf. unfold is_table_row in Ht. rewrite Hf, Ht.
  unfold is_list_item.
  pose proof (in_table_table_closed st) as E1.
  pose proof (table_buffer_table_closed st Hinv) as E2.
  pose proof (in_code_block_table_closed st) as E3. rewrite Hc in E3.
  destruct (Scan.table_closed st) as [o c cl t li buf] eqn:Es.
  cbn [in_table table_buffer in_code_block] in E1, E2, E3. subst c t buf.
  destruct (startswith (strip line) (py "- ")).
  { unfold Scan.effect. rewrite Es. destruct li; repeat split. }
  destruct (startswith (strip line) (py "#")).
  { unfold Scan.effect. rewrite Es. destruct li; repeat split. }
  destruct (is_rule (strip line)).
  { unfold Scan.effect. rewrite Es. destruct li; repeat split. }
  destruct (is_empty (strip line));
    unfold Scan.effect; rewrite Es; destruct li; repeat split.
Qed.

(** A state with an open table and an open list, met by a heading. *)
Lemma block_closed_on_transition_witness :
  exists st',
    step (mkState [] false [] true true [py "| a |"])
      (py "# title" ++ [newline]) = Ok st'
    /\ in_table st' = false
    /\ table_buffer st' = []
    /\ in_list st' = is_list_item (py "# title" ++ [newline])
    /\ in_code_block st' = false.
Proof.
  apply (block_closed_on_transition
           (mkState [] false [] true true [py "| a |"])
           (py "# title" ++ [newline]) eq_refl eq_refl eq_refl).
  split; [discriminate | reflexivity].
Defined.

(** X20: outside a code block, a line that falls through to the paragraph
    branch and whose trimmed text has no markup character is emitted as a
    paragraph around the trimmed text exactly as it is: what it holds of
    HTML is not escaped. *)
Theorem plain_paragraph (st : State) (line : str) :
  in_code_block st = false ->
  classify false line = Paragraph ->
  is_plain (strip line) = true ->
  emitted st line
  = (if in_table st then [Scan.rendered (table_buffer st)] else [])
      ++ (if in_list st then [py "</ul>"] else [])
      ++ [py "<p>" ++ strip line ++ py "</p>"].
Proof.
  intros Hc Hk Hp. rewrite emitted_by_kind, Hc, Hk.
  cbn [Scan.closing Scan.own]. rewrite (format_inline_unmarked _ Hp).
  unfold Scan.table_close, Scan.list_close.
  rewrite <- !app_assoc. reflexivity.
Qed.

(** The property at a line that holds a tag. *)
Lemma plain_paragraph_witness :
  emitted (initial []) (py "  a <b>bold</b> word" ++ [newline])
  = [] ++ [] ++ [py "<p>" ++ strip (py "  a <b>bold</b> word" ++ [newline])
                   ++ py "</p>"].
Proof.
  exact (plain_paragraph (initial [])
           (py "  a <b>bold</b> word" ++ [newline]) eq_refl eq_refl eq_refl).
Defined.
